(** * Beacon state routes: request serializers, route table, response envelope

    A shallow embedding of [packages/api/src/beacon/routes/beacon/state.ts]:
    the route table [routesData], the request serializers returned by
    [getReqSerializers], the table of return types built by [getReturnTypes],
    and the helpers these import from [utils/serdes.js] and [utils/index.js].

    Conventions of the embedding.
    - A TypeScript [number] that carries a slot, an epoch or a validator index
      is an [N]; a [string] is a [string].
    - A union [string | number] is an inductive type with one constructor per
      arm, so that [typeof x === "string"] is a [match].
    - An optional property or argument ([x?: T]) is an [option T]; [undefined]
      is [None].  An object literal whose properties are all optional and all
      absent ([{}]) is the record with every field [None].
    - A function that may [throw] returns a [Result]. *)

From Stdlib Require Import NArith String Ascii List Lia Bool.
From stdpp Require Import base option list strings gmap.

Import ListNotations.
Local Open Scope string_scope.
Local Open Scope list_scope.
Local Open Scope N_scope.

(** ** Errors *)

Inductive Error : Type :=
| MalformedNumber.

Inductive Result (A : Type) : Type :=
| Ok (a : A)
| Err (e : Error).

Arguments Ok {A} a.
Arguments Err {A} e.

Definition bindR {A B : Type} (r : Result A) (k : A -> Result B) : Result B :=
  match r with
  | Ok a => k a
  | Err e => Err e
  end.

Definition mapR {A B : Type} (f : A -> B) (r : Result A) : Result B :=
  bindR r (fun a => Ok (f a)).

(** [Array.prototype.map] with a callback that may throw: the elements are
    visited from left to right and the first exception aborts the call. *)
Fixpoint mapM_R {A B : Type} (f : A -> Result B) (l : list A) : Result (list B) :=
  match l with
  | [] => Ok []
  | x :: l' => bindR (f x) (fun y => bindR (mapM_R f l') (fun ys => Ok (y :: ys)))
  end.

(** ** Large-integer wire codec ([utils/serdes.js]) *)

Module Serdes.

Definition U64_MAX : N := 18446744073709551615.

Definition digit_to_ascii (d : N) : ascii := ascii_of_N (48 + d).

Definition is_digit (c : ascii) : bool :=
  (48 <=? N_of_ascii c) && (N_of_ascii c <=? 57).

Definition digit_of_ascii (c : ascii) : N := N_of_ascii c - 48.

(** The decimal digits of [n], most significant first.  Each round peels
    the last digit; [fuel] bounds the number of rounds. *)
Fixpoint digits_fuel (fuel : nat) (n : N) : list ascii :=
  match fuel with
  | O => []
  | S fuel' =>
      if n <? 10 then [digit_to_ascii n]
      else digits_fuel fuel' (n / 10) ++ [digit_to_ascii (n mod 10)]
  end.

(** A number has no more decimal digits than binary ones, and at least
    one. *)
Definition decimal_digits (n : N) : list ascii :=
  digits_fuel (S (N.to_nat (N.size n))) n.

(** The value a sequence of digits denotes, read left to right. *)
Definition decimal_value (cs : list ascii) : N :=
  fold_left (fun v c => 10 * v + digit_of_ascii c) cs 0.

Definition has_leading_zero (cs : list ascii) : bool :=
  match cs with
  | c :: _ :: _ => Ascii.eqb c "0"%char
  | _ => false
  end.

(** Modelled from the spec: [toU64Str] of [utils/serdes.js] is not among the
    sources.  Section 4.4: "canonical decimal rendering of an unsigned
    64-bit integer (no leading zeros, no sign)". *)
Definition toU64Str (u64 : N) : string :=
  string_of_list_ascii (decimal_digits u64).

(** Modelled from the spec: [fromU64Str] of [utils/serdes.js] is not among
    the sources.  Section 4.4: "inverse; fails with a MalformedNumber
    condition on non-digit characters, a leading zero other than the literal
    "0", or a value exceeding 2^64-1".  The three tests are made in the
    order the sentence lists them; the spec names no fourth condition, so a
    string that passes all three is read positionally (the empty string,
    which holds no digit at all, as 0). *)
Definition fromU64Str (u64Str : string) : Result N :=
  let cs := list_ascii_of_string u64Str in
  if negb (forallb is_digit cs) then Err MalformedNumber
  else if has_leading_zero cs then Err MalformedNumber
  else if U64_MAX <? decimal_value cs then Err MalformedNumber
  else Ok (decimal_value cs).

End Serdes.

(** ** Identifier and filter types *)

(** [StateId = RootHex | Slot | "head" | "genesis" | "finalized" | "justified"]:
    [RootHex] and the four aliases are strings, [Slot] is a number. *)
Inductive StateId : Type :=
| StateIdStr (s : string)
| StateIdNum (slot : N).

(** [ValidatorId = string | number]. *)
Inductive ValidatorId : Type :=
| ValidatorIdStr (s : string)
| ValidatorIdNum (index : N).

Inductive ValidatorStatus : Type :=
| active
| pending_initialized
| pending_queued
| active_ongoing
| active_exiting
| active_slashed
| exited_unslashed
| exited_slashed
| withdrawal_possible
| withdrawal_done.

(** [ValidatorFilters = {id?: ValidatorId[]; status?: ValidatorStatus[]}]. *)
Record ValidatorFilters : Type := {
  vf_id : option (list ValidatorId);
  vf_status : option (list ValidatorStatus);
}.

(** [CommitteesFilters = {epoch?: Epoch; index?: CommitteeIndex; slot?: Slot}]. *)
Record CommitteesFilters : Type := {
  cf_epoch : option N;
  cf_index : option N;
  cf_slot : option N;
}.

(** The object literal [{}] at the two filter types. *)
Definition emptyValidatorFilters : ValidatorFilters :=
  {| vf_id := None; vf_status := None |}.

Definition emptyCommitteesFilters : CommitteesFilters :=
  {| cf_epoch := None; cf_index := None; cf_slot := None |}.

(** The built-in [String(x)] at a [StateId]: a string is returned as it is, a
    non-negative integer below 10^21 (every slot is one) as its decimal
    digits. *)
Definition String_ (state_id : StateId) : string :=
  match state_id with
  | StateIdStr s => s
  | StateIdNum n => string_of_list_ascii (Serdes.decimal_digits n)
  end.

(** [x || d] at an optional object or array: both are truthy when present. *)
Definition or_default {A : Type} (x : option A) (d : A) : A :=
  match x with
  | Some a => a
  | None => d
  end.

(** ** Wire requests ([ReqTypes]) *)

(** A request is [{params, query, body}]; a part an operation does not use has
    type [unit]. *)
Record Req (P Q B : Type) : Type := {
  params : P;
  query : Q;
  body : B;
}.

Arguments params {P Q B} r.
Arguments query {P Q B} r.
Arguments body {P Q B} r.

(** [params: {state_id: S; validator_id: V}], with [V := unit] where the route
    has no [validator_id]. *)
Record Params (S V : Type) : Type := {
  state_id : S;
  validator_id : V;
}.

Arguments state_id {S V} p.
Arguments validator_id {S V} p.

(** [query: {epoch?: number}]. *)
Record EpochQuery : Type := { q_epoch : option N }.

(** [query: {id?: ValidatorId[]}]. *)
Record IdQuery : Type := { q_id : option (list ValidatorId) }.

(** [body: {ids?: string[]; statuses?: ValidatorStatus[]}]. *)
Record ValidatorsBody : Type := {
  b_ids : option (list string);
  b_statuses : option (list ValidatorStatus);
}.

(** Modelled from the spec: the enum [Schema] of [utils/index.js] is not among
    the sources.  Section 4.2 lists its vocabulary: "required-string,
    unsigned-integer, array-of(unsigned-integer-or-string), array-of-string,
    generic-object, unsigned-integer-or-string". *)
Module Schema.
Inductive t : Type :=
| StringRequired
| Uint
| UintOrStringArray
| StringArray
| Object
| UintOrString.
End Schema.

(** The [schema] of a serializer: one descriptor per named field of [params]
    and [query], and one for the whole [body]. *)
Record SchemaDef : Type := {
  schema_params : list (string * Schema.t);
  schema_query : list (string * Schema.t);
  schema_body : option Schema.t;
}.

(** [ReqSerializer<Fn, ReqType>]. *)
Record ReqSerializer (Args R : Type) : Type := {
  writeReq : Args -> R;
  parseReq : R -> Result Args;
  schema : SchemaDef;
}.

Arguments writeReq {Args R} r args.
Arguments parseReq {Args R} r req.
Arguments schema {Args R} r.

Definition StateIdOnlyReq : Type := Req (Params string unit) unit unit.

(** The callbacks the two POST serializers hand to [map]. *)
Definition writeValidatorId (id : ValidatorId) : string :=
  match id with
  | ValidatorIdStr s => s
  | ValidatorIdNum n => Serdes.toU64Str n
  end.

(** An element of the wire array is a [string] by [ReqTypes], so the test
    [typeof id === "string"] holds and the prefix decides. *)
Definition parseValidatorId (id : string) : Result ValidatorId :=
  if String.prefix "0x" id then Ok (ValidatorIdStr id)
  else mapR ValidatorIdNum (Serdes.fromU64Str id).

(** ** Request serializers ([getReqSerializers]) *)

Module ReqSerializers.

Definition stateIdOnlyReq : ReqSerializer StateId StateIdOnlyReq := {|
  writeReq := fun state_id =>
    {| params := {| state_id := String_ state_id; validator_id := tt |};
       query := tt; body := tt |};
  parseReq := fun r => Ok (StateIdStr (state_id (params r)));
  schema := {| schema_params := [("state_id", Schema.StringRequired)];
               schema_query := []; schema_body := None |};
|}.

Definition getEpochCommittees :
  ReqSerializer (StateId * option CommitteesFilters)
                (Req (Params StateId unit) CommitteesFilters unit) := {|
  writeReq := fun '(state_id, filters) =>
    {| params := {| state_id := state_id; validator_id := tt |};
       query := or_default filters emptyCommitteesFilters; body := tt |};
  parseReq := fun r => Ok (state_id (params r), Some (query r));
  schema := {| schema_params := [("state_id", Schema.StringRequired)];
               schema_query := [("slot", Schema.Uint); ("epoch", Schema.Uint);
                                ("index", Schema.Uint)];
               schema_body := None |};
|}.

Definition getEpochSyncCommittees :
  ReqSerializer (StateId * option N) (Req (Params StateId unit) EpochQuery unit) := {|
  writeReq := fun '(state_id, epoch) =>
    {| params := {| state_id := state_id; validator_id := tt |};
       query := {| q_epoch := epoch |}; body := tt |};
  parseReq := fun r => Ok (state_id (params r), q_epoch (query r));
  schema := {| schema_params := [("state_id", Schema.StringRequired)];
               schema_query := [("epoch", Schema.Uint)];
               schema_body := None |};
|}.

Definition getStateFinalityCheckpoints := stateIdOnlyReq.
Definition getStateFork := stateIdOnlyReq.
Definition getStateRoot := stateIdOnlyReq.

Definition getStateRandao :
  ReqSerializer (StateId * option N) (Req (Params StateId unit) EpochQuery unit) := {|
  writeReq := fun '(state_id, epoch) =>
    {| params := {| state_id := state_id; validator_id := tt |};
       query := {| q_epoch := epoch |}; body := tt |};
  parseReq := fun r => Ok (state_id (params r), q_epoch (query r));
  schema := {| schema_params := [("state_id", Schema.StringRequired)];
               schema_query := [("epoch", Schema.Uint)];
               schema_body := None |};
|}.

Definition getStateValidator :
  ReqSerializer (StateId * ValidatorId) (Req (Params StateId ValidatorId) unit unit) := {|
  writeReq := fun '(state_id, validator_id) =>
    {| params := {| state_id := state_id; validator_id := validator_id |};
       query := tt; body := tt |};
  parseReq := fun r => Ok (state_id (params r), validator_id (params r));
  schema := {| schema_params := [("state_id", Schema.StringRequired);
                                 ("validator_id", Schema.StringRequired)];
               schema_query := []; schema_body := None |};
|}.

Definition getStateValidators :
  ReqSerializer (StateId * option ValidatorFilters)
                (Req (Params StateId unit) ValidatorFilters unit) := {|
  writeReq := fun '(state_id, filters) =>
    {| params := {| state_id := state_id; validator_id := tt |};
       query := or_default filters emptyValidatorFilters; body := tt |};
  parseReq := fun r => Ok (state_id (params r), Some (query r));
  schema := {| schema_params := [("state_id", Schema.StringRequired)];
               schema_query := [("id", Schema.UintOrStringArray);
                                ("status", Schema.StringArray)];
               schema_body := None |};
|}.

(** [filters?.id?.map(f)] and [filters?.status] are [undefined] when
    [filters] is; [body.ids?.map(g)] is [undefined] when [body.ids] is. *)
Definition postStateValidators :
  ReqSerializer (StateId * option ValidatorFilters)
                (Req (Params StateId unit) unit ValidatorsBody) := {|
  writeReq := fun '(state_id, filters) =>
    {| params := {| state_id := state_id; validator_id := tt |};
       query := tt;
       body := {| b_ids := match filters with
                           | Some f => option_map (List.map writeValidatorId) (vf_id f)
                           | None => None
                           end;
                  b_statuses := match filters with
                                | Some f => vf_status f
                                | None => None
                                end |} |};
  parseReq := fun r =>
    bindR (match b_ids (body r) with
           | Some ids => mapR Some (mapM_R parseValidatorId ids)
           | None => Ok None
           end)
          (fun id =>
             Ok (state_id (params r),
                 Some {| vf_id := id; vf_status := b_statuses (body r) |}));
  schema := {| schema_params := [("state_id", Schema.StringRequired)];
               schema_query := []; schema_body := Some Schema.Object |};
|}.

Definition getStateValidatorBalances :
  ReqSerializer (StateId * option (list ValidatorId))
                (Req (Params StateId unit) IdQuery unit) := {|
  writeReq := fun '(state_id, id) =>
    {| params := {| state_id := state_id; validator_id := tt |};
       query := {| q_id := id |}; body := tt |};
  parseReq := fun r => Ok (state_id (params r), q_id (query r));
  schema := {| schema_params := [("state_id", Schema.StringRequired)];
               schema_query := [("id", Schema.UintOrStringArray)];
               schema_body := None |};
|}.

(** [body?: string[]]: [writeReq] always sets it, [parseReq] tolerates its
    absence. *)
Definition postStateValidatorBalances :
  ReqSerializer (StateId * option (list ValidatorId))
                (Req (Params StateId unit) unit (option (list string))) := {|
  writeReq := fun '(state_id, ids) =>
    {| params := {| state_id := state_id; validator_id := tt |};
       query := tt;
       body := Some (or_default (option_map (List.map writeValidatorId) ids) []) |};
  parseReq := fun r =>
    bindR (match body r with
           | Some ids => mapR Some (mapM_R parseValidatorId ids)
           | None => Ok None
           end)
          (fun ids => Ok (state_id (params r), ids));
  schema := {| schema_params := [("state_id", Schema.StringRequired)];
               schema_query := [];
               schema_body := Some Schema.UintOrStringArray |};
|}.

End ReqSerializers.

(** ** The operations ([Api]) and the route table ([routesData]) *)

Module Api.

(** [keyof Api], in the order the type declares its members. *)
Inductive Operation : Type :=
| getStateRoot
| getStateFork
| getStateRandao
| getStateFinalityCheckpoints
| getStateValidators
| postStateValidators
| getStateValidator
| getStateValidatorBalances
| postStateValidatorBalances
| getEpochCommittees
| getEpochSyncCommittees.

Definition name (op : Operation) : string :=
  match op with
  | getStateRoot => "getStateRoot"
  | getStateFork => "getStateFork"
  | getStateRandao => "getStateRandao"
  | getStateFinalityCheckpoints => "getStateFinalityCheckpoints"
  | getStateValidators => "getStateValidators"
  | postStateValidators => "postStateValidators"
  | getStateValidator => "getStateValidator"
  | getStateValidatorBalances => "getStateValidatorBalances"
  | postStateValidatorBalances => "postStateValidatorBalances"
  | getEpochCommittees => "getEpochCommittees"
  | getEpochSyncCommittees => "getEpochSyncCommittees"
  end.

(** The parameter list of each member of [Api], as a tuple. *)
Definition Args (op : Operation) : Type :=
  match op with
  | getStateRoot | getStateFork | getStateFinalityCheckpoints => StateId
  | getStateRandao | getEpochSyncCommittees => (StateId * option N)%type
  | getStateValidators | postStateValidators =>
      (StateId * option ValidatorFilters)%type
  | getStateValidator => (StateId * ValidatorId)%type
  | getStateValidatorBalances | postStateValidatorBalances =>
      (StateId * option (list ValidatorId))%type
  | getEpochCommittees => (StateId * option CommitteesFilters)%type
  end.

(** [ReqTypes]. *)
Definition ReqType (op : Operation) : Type :=
  match op with
  | getStateRoot | getStateFork | getStateFinalityCheckpoints => StateIdOnlyReq
  | getStateRandao | getEpochSyncCommittees =>
      Req (Params StateId unit) EpochQuery unit
  | getStateValidators => Req (Params StateId unit) ValidatorFilters unit
  | postStateValidators => Req (Params StateId unit) unit ValidatorsBody
  | getStateValidator => Req (Params StateId ValidatorId) unit unit
  | getStateValidatorBalances => Req (Params StateId unit) IdQuery unit
  | postStateValidatorBalances =>
      Req (Params StateId unit) unit (option (list string))
  | getEpochCommittees => Req (Params StateId unit) CommitteesFilters unit
  end.

End Api.

Record RouteDef : Type := {
  url : string;
  method : string;
}.

Definition routesData : gmap string RouteDef :=
  {[ "getEpochCommittees" :=
       {| url := "/eth/v1/beacon/states/{state_id}/committees"; method := "GET" |};
     "getEpochSyncCommittees" :=
       {| url := "/eth/v1/beacon/states/{state_id}/sync_committees"; method := "GET" |};
     "getStateFinalityCheckpoints" :=
       {| url := "/eth/v1/beacon/states/{state_id}/finality_checkpoints"; method := "GET" |};
     "getStateFork" :=
       {| url := "/eth/v1/beacon/states/{state_id}/fork"; method := "GET" |};
     "getStateRoot" :=
       {| url := "/eth/v1/beacon/states/{state_id}/root"; method := "GET" |};
     "getStateRandao" :=
       {| url := "/eth/v1/beacon/states/{state_id}/randao"; method := "GET" |};
     "getStateValidator" :=
       {| url := "/eth/v1/beacon/states/{state_id}/validators/{validator_id}";
          method := "GET" |};
     "getStateValidators" :=
       {| url := "/eth/v1/beacon/states/{state_id}/validators"; method := "GET" |};
     "postStateValidators" :=
       {| url := "/eth/v1/beacon/states/{state_id}/validators"; method := "POST" |};
     "getStateValidatorBalances" :=
       {| url := "/eth/v1/beacon/states/{state_id}/validator_balances"; method := "GET" |};
     "postStateValidatorBalances" :=
       {| url := "/eth/v1/beacon/states/{state_id}/validator_balances"; method := "POST" |}
  ]}.

(** ** The table of request serializers *)

(** An entry of [ReqSerializers<Api, ReqTypes>]: a serializer together with
    the argument and request types it is declared at. *)
Record AnyReqSerializer : Type := {
  ser_Args : Type;
  ser_Req : Type;
  ser : ReqSerializer ser_Args ser_Req;
}.

Definition getReqSerializers : gmap string AnyReqSerializer :=
  {[ "getEpochCommittees" := Build_AnyReqSerializer _ _ ReqSerializers.getEpochCommittees;
     "getEpochSyncCommittees" := Build_AnyReqSerializer _ _ ReqSerializers.getEpochSyncCommittees;
     "getStateFinalityCheckpoints" := Build_AnyReqSerializer _ _ ReqSerializers.getStateFinalityCheckpoints;
     "getStateFork" := Build_AnyReqSerializer _ _ ReqSerializers.getStateFork;
     "getStateRoot" := Build_AnyReqSerializer _ _ ReqSerializers.getStateRoot;
     "getStateRandao" := Build_AnyReqSerializer _ _ ReqSerializers.getStateRandao;
     "getStateValidator" := Build_AnyReqSerializer _ _ ReqSerializers.getStateValidator;
     "getStateValidators" := Build_AnyReqSerializer _ _ ReqSerializers.getStateValidators;
     "postStateValidators" := Build_AnyReqSerializer _ _ ReqSerializers.postStateValidators;
     "getStateValidatorBalances" := Build_AnyReqSerializer _ _ ReqSerializers.getStateValidatorBalances;
     "postStateValidatorBalances" := Build_AnyReqSerializer _ _ ReqSerializers.postStateValidatorBalances
  ]}.

(** The same table read at a member of [Api], with its types. *)
Definition reqSerializer (op : Api.Operation) :
  ReqSerializer (Api.Args op) (Api.ReqType op) :=
  match op with
  | Api.getStateRoot => ReqSerializers.getStateRoot
  | Api.getStateFork => ReqSerializers.getStateFork
  | Api.getStateRandao => ReqSerializers.getStateRandao
  | Api.getStateFinalityCheckpoints => ReqSerializers.getStateFinalityCheckpoints
  | Api.getStateValidators => ReqSerializers.getStateValidators
  | Api.postStateValidators => ReqSerializers.postStateValidators
  | Api.getStateValidator => ReqSerializers.getStateValidator
  | Api.getStateValidatorBalances => ReqSerializers.getStateValidatorBalances
  | Api.postStateValidatorBalances => ReqSerializers.postStateValidatorBalances
  | Api.getEpochCommittees => ReqSerializers.getEpochCommittees
  | Api.getEpochSyncCommittees => ReqSerializers.getEpochSyncCommittees
  end.

(** ** Response schemas and the optimistic/finalized envelope *)

(** The schema expressions [getReturnTypes] builds.  The types imported from
    [@lodestar/types] ([ssz.Root], [ssz.phase0.Fork], ...) are named, not
    defined: neither their fields nor their codecs are among the sources. *)
#[local] Unset Elimination Schemes.
Inductive SszType : Type :=
| ssz_Root
| ssz_ValidatorIndex
| ssz_UintNum64
| ssz_CommitteeIndex
| ssz_Slot
| ssz_phase0_Checkpoint
| ssz_phase0_Validator
| ssz_phase0_CommitteeIndices
| ssz_phase0_Fork
| StringType
| ContainerType (fields : list (string * SszType)) (jsonCase : option string)
| ArrayOf (elementType : SszType).

(** JSON values; an object is a finite map from keys to values. *)
Inductive Json : Type :=
| JNull
| JBool (b : bool)
| JNum (n : N)
| JStr (s : string)
| JArr (l : list Json)
| JObj (o : gmap string Json).
#[local] Set Elimination Schemes.

(** [TypeJson<T>]: the JSON side of a response type. *)
Record TypeJson (T : Type) : Type := {
  toJson : T -> Json;
  fromJson : Json -> option T;
}.

Arguments toJson {T} t v.
Arguments fromJson {T} t j.

(** A [TypeJson] whose JSON form is always an object. *)
Record TypeJsonObject (T : Type) : Type := {
  toJsonObject : T -> gmap string Json;
  fromJsonObject : gmap string Json -> option T;
}.

Arguments toJsonObject {T} t v.
Arguments fromJsonObject {T} t o.

(** [{data: T; executionOptimistic: ExecutionOptimistic}]. *)
Record DataExecutionOptimistic (T : Type) : Type := {
  data : T;
  executionOptimistic : bool;
}.

Arguments data {T} d.
Arguments executionOptimistic {T} d.

(** [T & {finalized: Finalized}]. *)
Record AndFinalized (T : Type) : Type := {
  rest : T;
  finalized : bool;
}.

Arguments rest {T} a.
Arguments finalized {T} a.

(** An optional boolean property: "default false if absent on decode"
    (section 3; the doc comment of [ExecutionOptimistic] says the same: "If
    the field is not present, assume the False value").  A property that is
    present and not a boolean is not a value of the schema. *)
Definition optionalFlag (o : gmap string Json) (key : string) : option bool :=
  match o !! key with
  | None => Some false
  | Some (JBool b) => Some b
  | Some _ => None
  end.

(** Modelled from the spec: [ContainerDataExecutionOptimistic] of
    [utils/index.js] is not among the sources.  Section 3: "ResponseEnvelope<T>:
    {data: T, executionOptimistic: boolean (default false if absent on
    decode), ...}"; section 6: "JSON {data: <payload>, execution_optimistic?:
    boolean, finalized?: boolean}". *)
Definition ContainerDataExecutionOptimistic {T : Type} (dataType : TypeJson T) :
  TypeJsonObject (DataExecutionOptimistic T) := {|
  toJsonObject := fun v =>
    {[ "data" := toJson dataType (data v);
       "execution_optimistic" := JBool (executionOptimistic v) ]};
  fromJsonObject := fun o =>
    match o !! "data" with
    | None => None
    | Some j =>
        match fromJson dataType j, optionalFlag o "execution_optimistic" with
        | Some d, Some eo => Some {| data := d; executionOptimistic := eo |}
        | _, _ => None
        end
    end;
|}.

(** Modelled from the spec: [WithFinalized] of [utils/index.js] is not among
    the sources.  Section 3: "finalized: boolean (default false if absent)";
    section 4.5: the envelope "composes with any schema via one generic
    wrapping combinator".  The flag is added to the object the wrapped type
    writes, and taken out of the object the wrapped type reads. *)
Definition WithFinalized {T : Type} (type : TypeJsonObject T) :
  TypeJsonObject (AndFinalized T) := {|
  toJsonObject := fun v =>
    <[ "finalized" := JBool (finalized v) ]> (toJsonObject type (rest v));
  fromJsonObject := fun o =>
    match fromJsonObject type (delete "finalized" o), optionalFlag o "finalized" with
    | Some r, Some fin => Some {| rest := r; finalized := fin |}
    | _, _ => None
    end;
|}.

(** An entry of [ReturnTypes<Api>]: a response type with the type of the
    values it describes. *)
Record AnyReturnType : Type := {
  ret_T : Type;
  ret_type : TypeJsonObject ret_T;
}.

Definition returnType {T : Type} (type : TypeJsonObject T) : AnyReturnType :=
  {| ret_T := T; ret_type := type |}.

Module ReturnTypes.

Definition RootContainer : SszType :=
  ContainerType [("root", ssz_Root)] None.

Definition RandaoContainer : SszType :=
  ContainerType [("randao", ssz_Root)] None.

Definition FinalityCheckpoints : SszType :=
  ContainerType [("previousJustified", ssz_phase0_Checkpoint);
                 ("currentJustified", ssz_phase0_Checkpoint);
                 ("finalized", ssz_phase0_Checkpoint)]
                (Some "eth2").

Definition ValidatorResponse : SszType :=
  ContainerType [("index", ssz_ValidatorIndex);
                 ("balance", ssz_UintNum64);
                 ("status", StringType);
                 ("validator", ssz_phase0_Validator)]
                (Some "eth2").

Definition ValidatorBalance : SszType :=
  ContainerType [("index", ssz_ValidatorIndex);
                 ("balance", ssz_UintNum64)]
                (Some "eth2").

Definition EpochCommitteeResponse : SszType :=
  ContainerType [("index", ssz_CommitteeIndex);
                 ("slot", ssz_Slot);
                 ("validators", ssz_phase0_CommitteeIndices)]
                (Some "eth2").

Definition EpochSyncCommitteesResponse : SszType :=
  ContainerType [("validators", ArrayOf ssz_ValidatorIndex);
                 ("validatorAggregates", ArrayOf (ArrayOf ssz_ValidatorIndex))]
                (Some "eth2").

(** The payload schema of each operation. *)
Definition payload (op : Api.Operation) : SszType :=
  match op with
  | Api.getStateRoot => RootContainer
  | Api.getStateFork => ssz_phase0_Fork
  | Api.getStateRandao => RandaoContainer
  | Api.getStateFinalityCheckpoints => FinalityCheckpoints
  | Api.getStateValidators => ArrayOf ValidatorResponse
  | Api.postStateValidators => ArrayOf ValidatorResponse
  | Api.getStateValidator => ValidatorResponse
  | Api.getStateValidatorBalances => ArrayOf ValidatorBalance
  | Api.postStateValidatorBalances => ArrayOf ValidatorBalance
  | Api.getEpochCommittees => ArrayOf EpochCommitteeResponse
  | Api.getEpochSyncCommittees => EpochSyncCommitteesResponse
  end.

End ReturnTypes.

Section GetReturnTypes.

(** The JSON codecs of [@chainsafe/ssz], which the sources do not hold:
    the values [sszValue t] a schema describes and how it writes and reads
    them. *)
Variable sszValue : SszType -> Type.
Variable sszJson : forall t : SszType, TypeJson (sszValue t).

Definition getReturnTypes : gmap string AnyReturnType :=
  {[
     "getStateRoot" :=
       returnType (WithFinalized (ContainerDataExecutionOptimistic
                                   (sszJson ReturnTypes.RootContainer)));
     "getStateFork" :=
       returnType (WithFinalized (ContainerDataExecutionOptimistic
                                   (sszJson ssz_phase0_Fork)));
     "getStateRandao" :=
       returnType (WithFinalized (ContainerDataExecutionOptimistic
                                   (sszJson ReturnTypes.RandaoContainer)));
     "getStateFinalityCheckpoints" :=
       returnType (WithFinalized (ContainerDataExecutionOptimistic
                                   (sszJson ReturnTypes.FinalityCheckpoints)));
     "getStateValidators" :=
       returnType (WithFinalized (ContainerDataExecutionOptimistic
                                   (sszJson (ArrayOf ReturnTypes.ValidatorResponse))));
     "postStateValidators" :=
       returnType (WithFinalized (ContainerDataExecutionOptimistic
                                   (sszJson (ArrayOf ReturnTypes.ValidatorResponse))));
     "getStateValidator" :=
       returnType (WithFinalized (ContainerDataExecutionOptimistic
                                   (sszJson ReturnTypes.ValidatorResponse)));
     "getStateValidatorBalances" :=
       returnType (WithFinalized (ContainerDataExecutionOptimistic
                                   (sszJson (ArrayOf ReturnTypes.ValidatorBalance))));
     "postStateValidatorBalances" :=
       returnType (WithFinalized (ContainerDataExecutionOptimistic
                                   (sszJson (ArrayOf ReturnTypes.ValidatorBalance))));
     "getEpochCommittees" :=
       returnType (WithFinalized (ContainerDataExecutionOptimistic
                                   (sszJson (ArrayOf ReturnTypes.EpochCommitteeResponse))));
     "getEpochSyncCommittees" :=
       returnType (WithFinalized (ContainerDataExecutionOptimistic
                                   (sszJson ReturnTypes.EpochSyncCommitteesResponse)))
  ]}.

End GetReturnTypes.

(** ** Arguments that cross the wire unchanged *)

(** A [ValidatorId] the POST body carries exactly: a number of 64 bits, or a
    string that starts with "0x". *)
Definition wireSafeId (id : ValidatorId) : bool :=
  match id with
  | ValidatorIdStr s => String.prefix "0x" s
  | ValidatorIdNum n => n <=? Serdes.U64_MAX
  end.

Definition wireSafeIds (ids : option (list ValidatorId)) : bool :=
  match ids with
  | Some l => forallb wireSafeId l
  | None => true
  end.

Definition isStateIdStr (state_id : StateId) : bool :=
  match state_id with
  | StateIdStr _ => true
  | StateIdNum _ => false
  end.

Definition isSome {A : Type} (x : option A) : bool :=
  match x with
  | Some _ => true
  | None => false
  end.

(** The argument tuples [writeReq] followed by [parseReq] gives back as they
    were: a [stateId] that is a string where [String(state_id)] is written,
    filters that are present where [filters || {}], [filters?.] or [ids?.]
    is written, and wire-safe ids where the ids are mapped. *)
Definition exactArgs (op : Api.Operation) : Api.Args op -> bool :=
  match op with
  | Api.getStateRoot => isStateIdStr
  | Api.getStateFork => isStateIdStr
  | Api.getStateFinalityCheckpoints => isStateIdStr
  | Api.getStateRandao => fun _ => true
  | Api.getEpochSyncCommittees => fun _ => true
  | Api.getStateValidator => fun _ => true
  | Api.getStateValidatorBalances => fun _ => true
  | Api.getStateValidators => fun args => isSome (snd args)
  | Api.getEpochCommittees => fun args => isSome (snd args)
  | Api.postStateValidators => fun args =>
      match snd args with
      | Some f => wireSafeIds (vf_id f)
      | None => false
      end
  | Api.postStateValidatorBalances => fun args =>
      match snd args with
      | Some ids => forallb wireSafeId ids
      | None => false
      end
  end.

(** ** The [state_id] of a request and of an argument tuple *)

Definition argsStateId (op : Api.Operation) : Api.Args op -> StateId :=
  match op with
  | Api.getStateRoot => fun a => a
  | Api.getStateFork => fun a => a
  | Api.getStateFinalityCheckpoints => fun a => a
  | Api.getStateRandao => fst
  | Api.getEpochSyncCommittees => fst
  | Api.getStateValidator => fst
  | Api.getStateValidatorBalances => fst
  | Api.getStateValidators => fst
  | Api.getEpochCommittees => fst
  | Api.postStateValidators => fst
  | Api.postStateValidatorBalances => fst
  end.

Definition reqStateId (op : Api.Operation) : Api.ReqType op -> StateId :=
  match op with
  | Api.getStateRoot => fun r => StateIdStr (state_id (params r))
  | Api.getStateFork => fun r => StateIdStr (state_id (params r))
  | Api.getStateFinalityCheckpoints => fun r => StateIdStr (state_id (params r))
  | Api.getStateRandao => fun r => state_id (params r)
  | Api.getEpochSyncCommittees => fun r => state_id (params r)
  | Api.getStateValidator => fun r => state_id (params r)
  | Api.getStateValidatorBalances => fun r => state_id (params r)
  | Api.getStateValidators => fun r => state_id (params r)
  | Api.getEpochCommittees => fun r => state_id (params r)
  | Api.postStateValidators => fun r => state_id (params r)
  | Api.postStateValidatorBalances => fun r => state_id (params r)
  end.

Definition setParamsStateId {S V Q B : Type} (s : S) (r : Req (Params S V) Q B) :
  Req (Params S V) Q B :=
  {| params := {| state_id := s; validator_id := validator_id (params r) |};
     query := query r; body := body r |}.

(** The request [r] with the literal [literal] as its [params.state_id]. *)
Definition withStateId (op : Api.Operation) (literal : string) :
  Api.ReqType op -> Api.ReqType op :=
  match op with
  | Api.getStateRoot => setParamsStateId literal
  | Api.getStateFork => setParamsStateId literal
  | Api.getStateFinalityCheckpoints => setParamsStateId literal
  | Api.getStateRandao => setParamsStateId (StateIdStr literal)
  | Api.getEpochSyncCommittees => setParamsStateId (StateIdStr literal)
  | Api.getStateValidator => setParamsStateId (StateIdStr literal)
  | Api.getStateValidatorBalances => setParamsStateId (StateIdStr literal)
  | Api.getStateValidators => setParamsStateId (StateIdStr literal)
  | Api.getEpochCommittees => setParamsStateId (StateIdStr literal)
  | Api.postStateValidators => setParamsStateId (StateIdStr literal)
  | Api.postStateValidatorBalances => setParamsStateId (StateIdStr literal)
  end.

Definition isOk {A : Type} (r : Result A) : bool :=
  match r with
  | Ok _ => true
  | Err _ => false
  end.

(** The descriptor a schema declares for a named field. *)
Fixpoint schemaField (key : string) (fields : list (string * Schema.t)) : option Schema.t :=
  match fields with
  | [] => None
  | (k, d) :: fields' => if String.eqb k key then Some d else schemaField key fields'
  end.

(** ** The grammar of [StateId] literals, as the spec words it *)

Module StateIdGrammar.

Inductive Kind : Type :=
| Alias (name : string)
| Slot (slot : N)
| Root (root : string).

Definition aliases : list string := ["head"; "genesis"; "finalized"; "justified"].

Definition is_hex_digit (c : ascii) : bool :=
  Serdes.is_digit c
  || ((97 <=? N_of_ascii c) && (N_of_ascii c <=? 102))
  || ((65 <=? N_of_ascii c) && (N_of_ascii c <=? 70)).

Definition is_decimal (cs : list ascii) : bool :=
  match cs with
  | [] => false
  | _ :: _ => forallb Serdes.is_digit cs
  end.

Definition is_root (cs : list ascii) : bool :=
  match cs with
  | c0 :: c1 :: hex =>
      Ascii.eqb c0 "0" && Ascii.eqb c1 "x"
      && (length hex =? 64)%nat && forallb is_hex_digit hex
  | _ => false
  end.

(** Section 4.3: "StateId literal grammar: "head" | "genesis" | "finalized" |
    "justified" | a decimal unsigned-integer string (Slot) | a 0x-prefixed
    64-hex-digit string (Root).  Any other literal is a malformed-identifier
    condition".  This classifier follows those words; it is not code of
    [state.ts], whose serializers are compared with it below. *)
Definition classify (literal : string) : option Kind :=
  let cs := list_ascii_of_string literal in
  if existsb (String.eqb literal) aliases then Some (Alias literal)
  else if is_decimal cs then Some (Slot (Serdes.decimal_value cs))
  else if is_root cs then Some (Root literal)
  else None.

End StateIdGrammar.

(** ** A sample payload codec *)

(** A codec to try the envelope on: every schema describes a number, written
    as a JSON number. *)
Definition sampleJson (t : SszType) : TypeJson N := {|
  toJson := JNum;
  fromJson := fun j => match j with JNum n => Some n | _ => None end;
|}.

(** ** What [Api] declares about each response *)

Module ApiResponses.

Inductive HttpStatusCode : Type :=
| OK
| BAD_REQUEST
| NOT_FOUND.

(** The second argument of [ApiClientResponse]: the error codes a member of
    [Api] declares. *)
Definition errors (op : Api.Operation) : list HttpStatusCode :=
  match op with
  | Api.getStateRoot => [BAD_REQUEST; NOT_FOUND]
  | Api.getStateFork => [BAD_REQUEST; NOT_FOUND]
  | Api.getStateRandao => [BAD_REQUEST; NOT_FOUND]
  | Api.getStateFinalityCheckpoints => [BAD_REQUEST; NOT_FOUND]
  | Api.getStateValidators => [BAD_REQUEST; NOT_FOUND]
  | Api.postStateValidators => [BAD_REQUEST; NOT_FOUND]
  | Api.getStateValidator => [BAD_REQUEST; NOT_FOUND]
  | Api.getStateValidatorBalances => [BAD_REQUEST]
  | Api.postStateValidatorBalances => [BAD_REQUEST]
  | Api.getEpochCommittees => [BAD_REQUEST; NOT_FOUND]
  | Api.getEpochSyncCommittees => [BAD_REQUEST; NOT_FOUND]
  end.

(** The shape of a TypeScript type: a type known by its name only, an object
    type with its property names in the order declared, or an array. *)
Inductive DataShape : Type :=
| Named (name : string)
| Properties (names : list string)
| ArrayLike (element : DataShape).

Definition FinalityCheckpoints : DataShape :=
  Properties ["previousJustified"; "currentJustified"; "finalized"].

Definition ValidatorResponse : DataShape :=
  Properties ["index"; "balance"; "status"; "validator"].

Definition ValidatorBalance : DataShape :=
  Properties ["index"; "balance"].

Definition EpochCommitteeResponse : DataShape :=
  Properties ["index"; "slot"; "validators"].

Definition EpochSyncCommitteeResponse : DataShape :=
  Properties ["validators"; "validatorAggregates"].

(** The type of [data] in the [HttpStatusCode.OK] response of each member. *)
Definition data (op : Api.Operation) : DataShape :=
  match op with
  | Api.getStateRoot => Properties ["root"]
  | Api.getStateFork => Named "phase0.Fork"
  | Api.getStateRandao => Properties ["randao"]
  | Api.getStateFinalityCheckpoints => FinalityCheckpoints
  | Api.getStateValidators => ArrayLike ValidatorResponse
  | Api.postStateValidators => ArrayLike ValidatorResponse
  | Api.getStateValidator => ValidatorResponse
  | Api.getStateValidatorBalances => ArrayLike ValidatorBalance
  | Api.postStateValidatorBalances => ArrayLike ValidatorBalance
  | Api.getEpochCommittees => ArrayLike EpochCommitteeResponse
  | Api.getEpochSyncCommittees => EpochSyncCommitteeResponse
  end.

End ApiResponses.

(** The shape a schema expression describes: a container has the properties
    it lists, [ArrayOf] is an array, an imported type is known by its name
    under [ssz]. *)
Fixpoint shapeOf (t : SszType) : ApiResponses.DataShape :=
  match t with
  | ssz_Root => ApiResponses.Named "Root"
  | ssz_ValidatorIndex => ApiResponses.Named "ValidatorIndex"
  | ssz_UintNum64 => ApiResponses.Named "UintNum64"
  | ssz_CommitteeIndex => ApiResponses.Named "CommitteeIndex"
  | ssz_Slot => ApiResponses.Named "Slot"
  | ssz_phase0_Checkpoint => ApiResponses.Named "phase0.Checkpoint"
  | ssz_phase0_Validator => ApiResponses.Named "phase0.Validator"
  | ssz_phase0_CommitteeIndices => ApiResponses.Named "phase0.CommitteeIndices"
  | ssz_phase0_Fork => ApiResponses.Named "phase0.Fork"
  | StringType => ApiResponses.Named "string"
  | ContainerType fields _ => ApiResponses.Properties (List.map fst fields)
  | ArrayOf elementType => ApiResponses.ArrayLike (shapeOf elementType)
  end.

(** ** What [ReqTypes] and the filter types declare *)

(** The property names of [params] and of [query] in a member of [ReqTypes],
    in the order declared, and whether it has a [body]. *)
Record ReqShape : Type := {
  shape_params : list string;
  shape_query : list string;
  shape_body : bool;
}.

Definition reqTypeShape (op : Api.Operation) : ReqShape :=
  match op with
  | Api.getEpochCommittees =>
      {| shape_params := ["state_id"]; shape_query := ["slot"; "epoch"; "index"];
         shape_body := false |}
  | Api.getEpochSyncCommittees =>
      {| shape_params := ["state_id"]; shape_query := ["epoch"]; shape_body := false |}
  | Api.getStateFinalityCheckpoints =>
      {| shape_params := ["state_id"]; shape_query := []; shape_body := false |}
  | Api.getStateFork =>
      {| shape_params := ["state_id"]; shape_query := []; shape_body := false |}
  | Api.getStateRoot =>
      {| shape_params := ["state_id"]; shape_query := []; shape_body := false |}
  | Api.getStateRandao =>
      {| shape_params := ["state_id"]; shape_query := ["epoch"]; shape_body := false |}
  | Api.getStateValidator =>
      {| shape_params := ["state_id"; "validator_id"]; shape_query := [];
         shape_body := false |}
  | Api.getStateValidators =>
      {| shape_params := ["state_id"]; shape_query := ["id"; "status"];
         shape_body := false |}
  | Api.postStateValidators =>
      {| shape_params := ["state_id"]; shape_query := []; shape_body := true |}
  | Api.getStateValidatorBalances =>
      {| shape_params := ["state_id"]; shape_query := ["id"]; shape_body := false |}
  | Api.postStateValidatorBalances =>
      {| shape_params := ["state_id"]; shape_query := []; shape_body := true |}
  end.

(** The property names of [ValidatorFilters] and of [CommitteesFilters]. *)
Definition ValidatorFilters_keys : list string := ["id"; "status"].

Definition CommitteesFilters_keys : list string := ["epoch"; "index"; "slot"].

(** ** The placeholders of a URL template *)

(** The names written between braces in a template, in the order they
    occur.  [open] holds the characters read since the last opening brace,
    latest first. *)
Fixpoint placeholders_from (cs : list ascii) (open : option (list ascii)) : list string :=
  match cs with
  | [] => []
  | c :: cs' =>
      match open with
      | None =>
          if Ascii.eqb c "{" then placeholders_from cs' (Some [])
          else placeholders_from cs' None
      | Some name =>
          if Ascii.eqb c "}"
          then string_of_list_ascii (List.rev name) :: placeholders_from cs' None
          else placeholders_from cs' (Some (c :: name))
      end
  end.

Definition placeholders (template : string) : list string :=
  placeholders_from (list_ascii_of_string template) None.

(** ** How an element of a POST id list is to be read *)

(** The reading of one element [w] of the wire list: with the prefix "0x" it
    is the string itself; without it, the number [fromU64Str] makes of it. *)
Definition classifiedAs (w : string) (id : ValidatorId) : Prop :=
  if String.prefix "0x" w then id = ValidatorIdStr w
  else exists n, Serdes.fromU64Str w = Ok n /\ id = ValidatorIdNum n.

(** An element that has no reading: no prefix, and [fromU64Str] throws. *)
Definition rejected (w : string) : Prop :=
  String.prefix "0x" w = false /\ exists e, Serdes.fromU64Str w = Err e.

(** * Properties *)

(** ** The [Result] monad *)

Lemma mapM_R_Ok_Forall2 {A B : Type} (f : A -> Result B) (l : list A) (l' : list B) :
  mapM_R f l = Ok l' <-> Forall2 (fun x y => f x = Ok y) l l'.
Proof.
  revert l'. induction l as [|x l IH]; intros l'; simpl.
  - split.
    + intros [= <-]. constructor.
    + intros H. inversion H. reflexivity.
  - split.
    + destruct (f x) as [y|e] eqn:Hx; simpl; [|discriminate].
      destruct (mapM_R f l) as [ys|e] eqn:Hl; simpl; [|discriminate].
      intros [= <-]. constructor; [assumption|]. apply IH. reflexivity.
    + intros H. inversion H as [|? y ? ys Hx Hl]; subst.
      rewrite Hx. simpl. apply IH in Hl. rewrite Hl. reflexivity.
Qed.

Lemma mapM_R_map {A B : Type} (f : A -> Result B) (g : B -> A) (l : list B) :
  Forall (fun y => f (g y) = Ok y) l ->
  mapM_R f (List.map g l) = Ok l.
Proof.
  induction 1 as [|y l Hy _ IH]; simpl.
  - reflexivity.
  - rewrite Hy. simpl. rewrite IH. reflexivity.
Qed.

(** ** The decimal codec *)

Module SerdesFacts.
Import Serdes.

Lemma N_of_digit (d : N) : d < 10 -> N_of_ascii (digit_to_ascii d) = 48 + d.
Proof.
  intros Hd. unfold digit_to_ascii. apply N_ascii_embedding. lia.
Qed.

Lemma is_digit_digit_to_ascii (d : N) : d < 10 -> is_digit (digit_to_ascii d) = true.
Proof.
  intros Hd. unfold is_digit. rewrite N_of_digit by assumption.
  apply andb_true_intro. split; apply N.leb_le; lia.
Qed.

Lemma digit_of_digit_to_ascii (d : N) : d < 10 -> digit_of_ascii (digit_to_ascii d) = d.
Proof.
  intros Hd. unfold digit_of_ascii. rewrite N_of_digit by assumption. lia.
Qed.

Lemma digit_to_ascii_zero (d : N) : d < 10 -> digit_to_ascii d = "0"%char -> d = 0.
Proof.
  intros Hd H. apply (f_equal N_of_ascii) in H.
  rewrite N_of_digit in H by assumption. simpl in H. lia.
Qed.

Lemma decimal_value_snoc (cs : list ascii) (c : ascii) :
  decimal_value (cs ++ [c]) = 10 * decimal_value cs + digit_of_ascii c.
Proof. unfold decimal_value. rewrite fold_left_app. reflexivity. Qed.

Lemma digits_fuel_all_digits (fuel : nat) (n : N) :
  forallb is_digit (digits_fuel fuel n) = true.
Proof.
  revert n. induction fuel as [|fuel IH]; intros n; simpl.
  - reflexivity.
  - destruct (n <? 10) eqn:Hn.
    + apply N.ltb_lt in Hn. simpl. rewrite is_digit_digit_to_ascii by assumption.
      reflexivity.
    + rewrite forallb_app, IH. simpl.
      rewrite is_digit_digit_to_ascii; [reflexivity|].
      apply N.mod_lt. lia.
Qed.

Lemma digits_fuel_value (fuel : nat) (n : N) :
  n < 10 ^ N.of_nat fuel -> decimal_value (digits_fuel fuel n) = n.
Proof.
  revert n. induction fuel as [|fuel IH]; intros n Hn.
  - simpl in *. unfold decimal_value. simpl. lia.
  - simpl digits_fuel. destruct (n <? 10) eqn:H10.
    + apply N.ltb_lt in H10. unfold decimal_value. simpl.
      rewrite digit_of_digit_to_ascii by assumption. reflexivity.
    + apply N.ltb_ge in H10. rewrite decimal_value_snoc.
      rewrite digit_of_digit_to_ascii by (apply N.mod_lt; lia).
      rewrite IH.
      * symmetry. apply N.div_mod. lia.
      * rewrite Nat2N.inj_succ, N.pow_succ_r' in Hn.
        apply N.Div0.div_lt_upper_bound. assumption.
Qed.

(** The first digit written for a positive number is not a zero. *)
Lemma digits_fuel_head (fuel : nat) (n : N) :
  0 < n -> n < 10 ^ N.of_nat fuel ->
  exists c rest, digits_fuel fuel n = c :: rest /\ c <> "0"%char.
Proof.
  revert n. induction fuel as [|fuel IH]; intros n Hpos Hn.
  - simpl in Hn. lia.
  - simpl digits_fuel. destruct (n <? 10) eqn:H10.
    + apply N.ltb_lt in H10. exists (digit_to_ascii n), []. split; [reflexivity|].
      intros H. apply digit_to_ascii_zero in H; lia.
    + apply N.ltb_ge in H10.
      destruct (IH (n / 10)) as (c & rest & Heq & Hc).
      * apply N.div_str_pos. lia.
      * rewrite Nat2N.inj_succ, N.pow_succ_r' in Hn.
        apply N.Div0.div_lt_upper_bound. assumption.
      * rewrite Heq. exists c, (rest ++ [digit_to_ascii (n mod 10)]).
        split; [reflexivity|assumption].
Qed.

Lemma digits_fuel_no_leading_zero (fuel : nat) (n : N) :
  n < 10 ^ N.of_nat fuel -> has_leading_zero (digits_fuel fuel n) = false.
Proof.
  intros Hn. destruct fuel as [|fuel]; [reflexivity|].
  simpl digits_fuel. destruct (n <? 10) eqn:H10; [reflexivity|].
  apply N.ltb_ge in H10.
  destruct (digits_fuel_head fuel (n / 10)) as (c & rest & Heq & Hc).
  - apply N.div_str_pos. lia.
  - rewrite Nat2N.inj_succ, N.pow_succ_r' in Hn.
    apply N.Div0.div_lt_upper_bound. assumption.
  - rewrite Heq. simpl. destruct rest; simpl; apply Ascii.eqb_neq; assumption.
Qed.

(** The fuel [decimal_digits] provides is enough. *)
Lemma enough_fuel (n : N) : n < 10 ^ N.of_nat (S (N.to_nat (N.size n))).
Proof.
  rewrite Nat2N.inj_succ, N2Nat.id.
  apply N.lt_le_trans with (2 ^ N.size n); [apply N.size_gt|].
  apply N.le_trans with (10 ^ N.size n).
  - apply N.pow_le_mono_l. lia.
  - apply N.pow_le_mono_r; lia.
Qed.

Lemma decimal_digits_value (n : N) : decimal_value (decimal_digits n) = n.
Proof. apply digits_fuel_value, enough_fuel. Qed.

Lemma decimal_digits_nonempty (n : N) : decimal_digits n <> [].
Proof.
  unfold decimal_digits. simpl. destruct (n <? 10); [discriminate|].
  intros H. apply app_eq_nil in H as [_ H]. discriminate.
Qed.

(** What [toU64Str] writes never starts with the characters "0x". *)
Lemma toU64Str_not_hex (n : N) : String.prefix "0x" (toU64Str n) = false.
Proof.
  unfold toU64Str.
  assert (Hd := digits_fuel_all_digits (S (N.to_nat (N.size n))) n).
  fold (decimal_digits n) in Hd.
  destruct (decimal_digits n) as [|c [|c' cs]]; [reflexivity| |];
    cbn [String.prefix string_of_list_ascii].
  - destruct (ascii_dec "0" c); reflexivity.
  - destruct (ascii_dec "0" c); [|reflexivity].
    destruct (ascii_dec "x" c') as [<-|]; [|reflexivity].
    simpl in Hd. apply andb_prop in Hd as [_ Hd]. discriminate Hd.
Qed.

Lemma fromU64Str_toU64Str (n : N) : n <= U64_MAX -> fromU64Str (toU64Str n) = Ok n.
Proof.
  intros Hn. unfold fromU64Str, toU64Str.
  rewrite list_ascii_of_string_of_list_ascii.
  unfold decimal_digits at 1. rewrite digits_fuel_all_digits. simpl negb. cbv iota.
  unfold decimal_digits at 1.
  rewrite digits_fuel_no_leading_zero by apply enough_fuel.
  rewrite decimal_digits_value.
  destruct (U64_MAX <? n) eqn:Hlt; [apply N.ltb_lt in Hlt; lia|reflexivity].
Qed.

Lemma fromU64Str_toU64Str_over (n : N) :
  U64_MAX < n -> fromU64Str (toU64Str n) = Err MalformedNumber.
Proof.
  intros Hn. unfold fromU64Str, toU64Str.
  rewrite list_ascii_of_string_of_list_ascii.
  unfold decimal_digits at 1. rewrite digits_fuel_all_digits. simpl negb. cbv iota.
  unfold decimal_digits at 1.
  rewrite digits_fuel_no_leading_zero by apply enough_fuel.
  rewrite decimal_digits_value.
  apply N.ltb_lt in Hn. rewrite Hn. reflexivity.
Qed.

(** What [toU64Str] writes is canonical: digits only, at least one, and no
    zero in front of another digit. *)
Lemma toU64Str_canonical (n : N) :
  let cs := list_ascii_of_string (toU64Str n) in
  forallb is_digit cs = true /\ cs <> [] /\ has_leading_zero cs = false.
Proof.
  cbv zeta. unfold toU64Str. rewrite list_ascii_of_string_of_list_ascii.
  split; [apply digits_fuel_all_digits|].
  split; [apply decimal_digits_nonempty|].
  apply digits_fuel_no_leading_zero, enough_fuel.
Qed.

End SerdesFacts.

Example toU64Str_42 : Serdes.toU64Str 42 = "42".
Proof. reflexivity. Qed.

Example toU64Str_0 : Serdes.toU64Str 0 = "0".
Proof. reflexivity. Qed.

Example toU64Str_max : Serdes.toU64Str Serdes.U64_MAX = "18446744073709551615".
Proof. vm_compute. reflexivity. Qed.

Example fromU64Str_42 : Serdes.fromU64Str "42" = Ok 42.
Proof. vm_compute. reflexivity. Qed.

Example fromU64Str_0 : Serdes.fromU64Str "0" = Ok 0.
Proof. vm_compute. reflexivity. Qed.

Example fromU64Str_max : Serdes.fromU64Str "18446744073709551615" = Ok Serdes.U64_MAX.
Proof. vm_compute. reflexivity. Qed.

Example fromU64Str_empty : Serdes.fromU64Str "" = Ok 0.
Proof. vm_compute. reflexivity. Qed.

Example fromU64Str_over : Serdes.fromU64Str "18446744073709551616" = Err MalformedNumber.
Proof. vm_compute. reflexivity. Qed.

(** ** The large-integer wire codec *)

Lemma forallb_false_exists {A : Type} (f : A -> bool) (l : list A) :
  forallb f l = false <-> exists x, In x l /\ f x = false.
Proof.
  induction l as [|a l IH]; simpl.
  - split; [discriminate|]. intros (x & [] & _).
  - destruct (f a) eqn:Ha; simpl.
    + rewrite IH. split.
      * intros (x & Hin & Hx). exists x. auto.
      * intros (x & [<-|Hin] & Hx); [congruence|]. exists x. auto.
    + split; [|reflexivity]. intros _. exists a. auto.
Qed.

Lemma has_leading_zero_spec (s : string) :
  Serdes.has_leading_zero (list_ascii_of_string s) = true <->
  exists rest, s = String "0" rest /\ rest <> "".
Proof.
  destruct s as [|c [|c' s]]; simpl.
  - split; [discriminate|]. intros (rest & H & _). discriminate.
  - split; [discriminate|]. intros (rest & [= _ <-] & Hne). congruence.
  - rewrite Ascii.eqb_eq. split.
    + intros ->. eexists. split; [reflexivity|discriminate].
    + intros (rest & [= -> _] & _). reflexivity.
Qed.

(** C3.  [fromU64Str (toU64Str n) = n] for every [n] in [0, 2^64-1];
    [fromU64Str] fails, with [MalformedNumber], exactly when its input holds a
    character that is not a digit, or starts with a zero that another
    character follows, or denotes a value above 2^64-1; and it rejects "01",
    "-1" and "abc". *)
Theorem u64_wire_codec :
  (forall n, n <= Serdes.U64_MAX -> Serdes.fromU64Str (Serdes.toU64Str n) = Ok n)
  /\ (forall s,
        Serdes.fromU64Str s = Err MalformedNumber <->
        (exists c, In c (list_ascii_of_string s) /\ Serdes.is_digit c = false)
        \/ (exists rest, s = String "0" rest /\ rest <> "")
        \/ Serdes.U64_MAX < Serdes.decimal_value (list_ascii_of_string s))
  /\ (forall s n,
        Serdes.fromU64Str s = Ok n ->
        n = Serdes.decimal_value (list_ascii_of_string s) /\ n <= Serdes.U64_MAX)
  /\ Serdes.fromU64Str "01" = Err MalformedNumber
  /\ Serdes.fromU64Str "-1" = Err MalformedNumber
  /\ Serdes.fromU64Str "abc" = Err MalformedNumber.
Proof.
  split; [exact SerdesFacts.fromU64Str_toU64Str|].
  split; [|split; [|repeat split; vm_compute; reflexivity]].
  - intros s. unfold Serdes.fromU64Str. cbv zeta.
    destruct (forallb Serdes.is_digit (list_ascii_of_string s)) eqn:Hd; simpl negb; cbv iota.
    + destruct (Serdes.has_leading_zero (list_ascii_of_string s)) eqn:Hz.
      * split; [|reflexivity]. intros _. right; left.
        apply has_leading_zero_spec. assumption.
      * destruct (Serdes.U64_MAX <? Serdes.decimal_value (list_ascii_of_string s)) eqn:Hv.
        -- split; [|reflexivity]. intros _. right; right. apply N.ltb_lt. assumption.
        -- split; [discriminate|]. intros [H|[H|H]].
           ++ apply forallb_false_exists in H. congruence.
           ++ apply has_leading_zero_spec in H. congruence.
           ++ apply N.ltb_lt in H. congruence.
    + split; [|reflexivity]. intros _. left. apply forallb_false_exists. assumption.
  - intros s n. unfold Serdes.fromU64Str. cbv zeta.
    destruct (negb _); [discriminate|].
    destruct (Serdes.has_leading_zero _); [discriminate|].
    destruct (Serdes.U64_MAX <? _) eqn:Hv; [discriminate|].
    intros [= <-]. split; [reflexivity|]. apply N.ltb_ge. assumption.
Qed.

(** An instance of the round trip: the largest 64-bit value. *)
Lemma u64_wire_codec_witness :
  Serdes.fromU64Str (Serdes.toU64Str Serdes.U64_MAX) = Ok Serdes.U64_MAX.
Proof.
  apply (proj1 u64_wire_codec Serdes.U64_MAX). unfold Serdes.U64_MAX. lia.
Defined.

Lemma is_digit_spec (c : ascii) :
  Serdes.is_digit c = true <-> In c (list_ascii_of_string "0123456789").
Proof.
  destruct c as [[] [] [] [] [] [] [] []]; vm_compute;
    (split; [first [discriminate | intros _; tauto] | ]);
    first [ reflexivity | intros H; repeat destruct H as [H|H]; try discriminate H; contradiction ].
Qed.

(** ** Validator ids on the wire *)

Lemma parseValidatorId_hex (id : string) :
  String.prefix "0x" id = true -> parseValidatorId id = Ok (ValidatorIdStr id).
Proof. intros H. unfold parseValidatorId. rewrite H. reflexivity. Qed.

Lemma parseValidatorId_decimal (id : string) :
  String.prefix "0x" id = false ->
  parseValidatorId id = mapR ValidatorIdNum (Serdes.fromU64Str id).
Proof. intros H. unfold parseValidatorId. rewrite H. reflexivity. Qed.

Lemma parse_write_wireSafeId (id : ValidatorId) :
  wireSafeId id = true -> parseValidatorId (writeValidatorId id) = Ok id.
Proof.
  destruct id as [s|n]; simpl; intros H.
  - apply parseValidatorId_hex. assumption.
  - rewrite parseValidatorId_decimal by apply SerdesFacts.toU64Str_not_hex.
    apply N.leb_le in H. rewrite SerdesFacts.fromU64Str_toU64Str by assumption.
    reflexivity.
Qed.

(** Conversely, an id that is not wire-safe does not come back. *)
Lemma parse_write_not_wireSafeId (id : ValidatorId) :
  wireSafeId id = false -> parseValidatorId (writeValidatorId id) <> Ok id.
Proof.
  destruct id as [s|n]; simpl; intros H.
  - rewrite parseValidatorId_decimal by assumption.
    destruct (Serdes.fromU64Str s); discriminate.
  - rewrite parseValidatorId_decimal by apply SerdesFacts.toU64Str_not_hex.
    apply N.leb_gt in H. rewrite SerdesFacts.fromU64Str_toU64Str_over by assumption.
    discriminate.
Qed.

Lemma parse_write_wireSafeIds (ids : list ValidatorId) :
  forallb wireSafeId ids = true ->
  mapM_R parseValidatorId (List.map writeValidatorId ids) = Ok ids.
Proof.
  intros H. apply mapM_R_map. apply List.Forall_forall. intros id Hin.
  apply parse_write_wireSafeId. rewrite forallb_forall in H. apply H. assumption.
Qed.

Lemma parse_write_ids_exact (ids : list ValidatorId) :
  mapM_R parseValidatorId (List.map writeValidatorId ids) = Ok ids ->
  forallb wireSafeId ids = true.
Proof.
  intros H. apply mapM_R_Ok_Forall2 in H.
  induction ids as [|id ids IH]; [reflexivity|].
  simpl in H. inversion H as [|? ? ? ? Hid Hids]; subst.
  simpl. rewrite IH by assumption.
  destruct (wireSafeId id) eqn:Hs; [reflexivity|].
  apply parse_write_not_wireSafeId in Hs. contradiction.
Qed.

(** C8.  For [postStateValidators], [writeReq] at the filter
    [{id: [42, "0xaa..."], status: ["active_ongoing"]}] gives the body
    [{ids: ["42", "0xaa..."], statuses: ["active_ongoing"]}], and [parseReq] of
    that request gives the filter back; whatever follows "0xaa" in the key. *)
Theorem postStateValidators_scenario_A (s : StateId) (key : string) :
  let pubkey := String.append "0xaa" key in
  let filters := {| vf_id := Some [ValidatorIdNum 42; ValidatorIdStr pubkey];
                    vf_status := Some [active_ongoing] |} in
  let request := {| params := {| state_id := s; validator_id := tt |};
                    query := tt;
                    body := {| b_ids := Some ["42"; pubkey];
                               b_statuses := Some [active_ongoing] |} |} in
  writeReq ReqSerializers.postStateValidators (s, Some filters) = request
  /\ parseReq ReqSerializers.postStateValidators request = Ok (s, Some filters).
Proof.
  split; reflexivity.
Qed.

(** ** Absent filters *)

(** C10.  An absent filter is written as an empty container:
    [postStateValidatorBalances.writeReq] with [indices = undefined] gives
    the body [[]], [getStateValidators.writeReq] and
    [getEpochCommittees.writeReq] with [filters = undefined] give the query
    [{}]; so the absent and the empty filter give the same request, and
    [parseReq] returns the empty container. *)
Theorem absent_filters_written_empty (s : StateId) :
  (writeReq ReqSerializers.postStateValidatorBalances (s, None)
     = {| params := {| state_id := s; validator_id := tt |}; query := tt; body := Some [] |}
   /\ writeReq ReqSerializers.getStateValidators (s, None)
     = {| params := {| state_id := s; validator_id := tt |};
          query := emptyValidatorFilters; body := tt |}
   /\ writeReq ReqSerializers.getEpochCommittees (s, None)
     = {| params := {| state_id := s; validator_id := tt |};
          query := emptyCommitteesFilters; body := tt |})
  /\ (writeReq ReqSerializers.postStateValidatorBalances (s, None)
        = writeReq ReqSerializers.postStateValidatorBalances (s, Some [])
      /\ writeReq ReqSerializers.getStateValidators (s, None)
        = writeReq ReqSerializers.getStateValidators (s, Some emptyValidatorFilters)
      /\ writeReq ReqSerializers.getEpochCommittees (s, None)
        = writeReq ReqSerializers.getEpochCommittees (s, Some emptyCommitteesFilters))
  /\ (parseReq ReqSerializers.postStateValidatorBalances
        (writeReq ReqSerializers.postStateValidatorBalances (s, None)) = Ok (s, Some [])
      /\ parseReq ReqSerializers.getStateValidators
        (writeReq ReqSerializers.getStateValidators (s, None))
        = Ok (s, Some emptyValidatorFilters)
      /\ parseReq ReqSerializers.getEpochCommittees
        (writeReq ReqSerializers.getEpochCommittees (s, None))
        = Ok (s, Some emptyCommitteesFilters)).
Proof.
  repeat split.
Qed.

(** ** [parseReq] after [writeReq] *)

(** C1, as the code has it.  For every operation and every argument tuple
    in which the [stateId] handed to [getStateRoot], [getStateFork] or
    [getStateFinalityCheckpoints] is a string, the optional filters of
    [getEpochCommittees], [getStateValidators], [postStateValidators] and
    [postStateValidatorBalances] are present, and every id handed to the two
    POST operations is a number in [0, 2^64-1] or a string that starts with
    "0x", [parseReq (writeReq args)] returns [args]. *)
Theorem parseReq_writeReq (op : Api.Operation) (args : Api.Args op) :
  exactArgs op args = true ->
  parseReq (reqSerializer op) (writeReq (reqSerializer op) args) = Ok args.
Proof.
  destruct op; simpl in args |- *.
  - destruct args; [reflexivity|discriminate].
  - destruct args; [reflexivity|discriminate].
  - destruct args; reflexivity.
  - destruct args; [reflexivity|discriminate].
  - destruct args as [s [f|]]; [reflexivity|discriminate].
  - destruct args as [s [[ids statuses]|]]; simpl; [|discriminate].
    destruct ids as [ids|]; simpl; [|reflexivity].
    intros H. rewrite parse_write_wireSafeIds by assumption. reflexivity.
  - destruct args; reflexivity.
  - destruct args; reflexivity.
  - destruct args as [s [ids|]]; simpl; [|discriminate].
    intros H. rewrite parse_write_wireSafeIds by assumption. reflexivity.
  - destruct args as [s [f|]]; [reflexivity|discriminate].
  - destruct args; reflexivity.
Qed.

Lemma parseReq_writeReq_witness :
  parseReq (reqSerializer Api.postStateValidators)
    (writeReq (reqSerializer Api.postStateValidators)
       (StateIdNum 12345,
        Some {| vf_id := Some [ValidatorIdNum 42; ValidatorIdStr "0xaa"];
                vf_status := Some [active_ongoing; exited_slashed] |}))
  = Ok (StateIdNum 12345,
        Some {| vf_id := Some [ValidatorIdNum 42; ValidatorIdStr "0xaa"];
                vf_status := Some [active_ongoing; exited_slashed] |}).
Proof.
  apply (parseReq_writeReq Api.postStateValidators). reflexivity.
Defined.

(** The condition on the arguments is the weakest one: outside it the tuple
    does not come back. *)
Lemma parseReq_writeReq_only (op : Api.Operation) (args : Api.Args op) :
  parseReq (reqSerializer op) (writeReq (reqSerializer op) args) = Ok args ->
  exactArgs op args = true.
Proof.
  destruct op; simpl in args |- *; try reflexivity.
  - destruct args; [reflexivity|discriminate].
  - destruct args; [reflexivity|discriminate].
  - destruct args; [reflexivity|discriminate].
  - destruct args as [s [f|]]; [reflexivity|discriminate].
  - destruct args as [s [[ids statuses]|]]; simpl.
    + destruct ids as [ids|]; simpl; [|reflexivity].
      destruct (mapM_R parseValidatorId (List.map writeValidatorId ids)) as [ids'|e] eqn:Hm;
        simpl; [|discriminate].
      intros [= ->]. apply parse_write_ids_exact. assumption.
    + discriminate.
  - destruct args as [s [ids|]]; simpl.
    + destruct (mapM_R parseValidatorId (List.map writeValidatorId ids)) as [ids'|e] eqn:Hm;
        simpl; [|discriminate].
      intros [= ->]. apply parse_write_ids_exact. assumption.
    + discriminate.
  - destruct args as [s [f|]]; [reflexivity|discriminate].
Qed.

(** What a state-only operation gives back is [String(state_id)]. *)
Lemma stateIdOnlyReq_parse_write (s : StateId) :
  parseReq ReqSerializers.stateIdOnlyReq (writeReq ReqSerializers.stateIdOnlyReq s)
  = Ok (StateIdStr (String_ s)).
Proof. reflexivity. Qed.

(** C1, as the spec states it, fails: a slot number handed to a state-only
    operation comes back as a string, an absent filter comes back as the
    empty one, and a string id without the prefix comes back as a number. *)
Lemma parseReq_writeReq_not_identity :
  parseReq (reqSerializer Api.getStateFork)
    (writeReq (reqSerializer Api.getStateFork) (StateIdNum 12345))
  = Ok (StateIdStr "12345")
  /\ Ok (StateIdStr "12345") <> Ok (StateIdNum 12345)
  /\ parseReq (reqSerializer Api.getEpochCommittees)
    (writeReq (reqSerializer Api.getEpochCommittees) (StateIdStr "head", None))
  = Ok (StateIdStr "head", Some emptyCommitteesFilters)
  /\ Ok (StateIdStr "head", Some emptyCommitteesFilters)
     <> Ok (StateIdStr "head", @None CommitteesFilters)
  /\ parseReq (reqSerializer Api.postStateValidatorBalances)
    (writeReq (reqSerializer Api.postStateValidatorBalances)
       (StateIdStr "head", Some [ValidatorIdStr "42"]))
  = Ok (StateIdStr "head", Some [ValidatorIdNum 42])
  /\ Ok (StateIdStr "head", Some [ValidatorIdNum 42])
     <> Ok (StateIdStr "head", Some [ValidatorIdStr "42"]).
Proof.
  repeat split; try (vm_compute; reflexivity); discriminate.
Qed.

(** ** GET and POST variants of one query *)

(** C2, as the code has it.  For every [s], every [ValidatorFilters] [f] and
    every list [ids] whose ids are each a number in [0, 2^64-1] or a string
    that starts with "0x", [getStateValidators] and [postStateValidators]
    parse what they wrote for [(s, f)] to the same tuple, and so do
    [getStateValidatorBalances] and [postStateValidatorBalances] for
    [(s, ids)]. *)
Theorem get_post_same_arguments (s : StateId) (f : ValidatorFilters) (ids : list ValidatorId) :
  wireSafeIds (vf_id f) = true ->
  forallb wireSafeId ids = true ->
  parseReq ReqSerializers.getStateValidators
    (writeReq ReqSerializers.getStateValidators (s, Some f))
  = parseReq ReqSerializers.postStateValidators
      (writeReq ReqSerializers.postStateValidators (s, Some f))
  /\ parseReq ReqSerializers.getStateValidatorBalances
       (writeReq ReqSerializers.getStateValidatorBalances (s, Some ids))
     = parseReq ReqSerializers.postStateValidatorBalances
         (writeReq ReqSerializers.postStateValidatorBalances (s, Some ids)).
Proof.
  intros Hf Hids. split.
  - destruct f as [[fids|] statuses]; simpl in Hf |- *; [|reflexivity].
    rewrite parse_write_wireSafeIds by assumption. reflexivity.
  - simpl. rewrite parse_write_wireSafeIds by assumption. reflexivity.
Qed.

Lemma get_post_same_arguments_witness :
  let s := StateIdStr "finalized" in
  let f := {| vf_id := Some [ValidatorIdNum 7; ValidatorIdStr "0x93"];
              vf_status := Some [active_ongoing] |} in
  let ids := [ValidatorIdStr "0x93"; ValidatorIdNum Serdes.U64_MAX] in
  parseReq ReqSerializers.getStateValidators
    (writeReq ReqSerializers.getStateValidators (s, Some f))
  = parseReq ReqSerializers.postStateValidators
      (writeReq ReqSerializers.postStateValidators (s, Some f))
  /\ parseReq ReqSerializers.getStateValidatorBalances
       (writeReq ReqSerializers.getStateValidatorBalances (s, Some ids))
     = parseReq ReqSerializers.postStateValidatorBalances
         (writeReq ReqSerializers.postStateValidatorBalances (s, Some ids)).
Proof.
  apply get_post_same_arguments; reflexivity.
Defined.

(** The two transports agree on no other filter or list. *)
Lemma get_post_same_arguments_only (s : StateId) (f : ValidatorFilters) (ids : list ValidatorId) :
  (parseReq ReqSerializers.getStateValidators
     (writeReq ReqSerializers.getStateValidators (s, Some f))
   = parseReq ReqSerializers.postStateValidators
       (writeReq ReqSerializers.postStateValidators (s, Some f))
   -> wireSafeIds (vf_id f) = true)
  /\ (parseReq ReqSerializers.getStateValidatorBalances
        (writeReq ReqSerializers.getStateValidatorBalances (s, Some ids))
      = parseReq ReqSerializers.postStateValidatorBalances
          (writeReq ReqSerializers.postStateValidatorBalances (s, Some ids))
      -> forallb wireSafeId ids = true).
Proof.
  split; intros H.
  - apply (parseReq_writeReq_only Api.postStateValidators (s, Some f)).
    symmetry. exact H.
  - apply (parseReq_writeReq_only Api.postStateValidatorBalances (s, Some ids)).
    symmetry. exact H.
Qed.

(** C2, as the spec states it, fails at the id "42" given as a string: the
    GET variant hands the string on, the POST variant a number. *)
Lemma get_post_differ_on_decimal_string :
  let s := StateIdStr "head" in
  let f := {| vf_id := Some [ValidatorIdStr "42"]; vf_status := None |} in
  parseReq ReqSerializers.getStateValidators
    (writeReq ReqSerializers.getStateValidators (s, Some f))
  = Ok (s, Some {| vf_id := Some [ValidatorIdStr "42"]; vf_status := None |})
  /\ parseReq ReqSerializers.postStateValidators
       (writeReq ReqSerializers.postStateValidators (s, Some f))
     = Ok (s, Some {| vf_id := Some [ValidatorIdNum 42]; vf_status := None |})
  /\ parseReq ReqSerializers.getStateValidators
       (writeReq ReqSerializers.getStateValidators (s, Some f))
     <> parseReq ReqSerializers.postStateValidators
          (writeReq ReqSerializers.postStateValidators (s, Some f))
  /\ parseReq ReqSerializers.getStateValidatorBalances
       (writeReq ReqSerializers.getStateValidatorBalances (s, Some [ValidatorIdStr "42"]))
     <> parseReq ReqSerializers.postStateValidatorBalances
          (writeReq ReqSerializers.postStateValidatorBalances (s, Some [ValidatorIdStr "42"])).
Proof.
  repeat split; try (vm_compute; reflexivity); vm_compute; discriminate.
Qed.

(** ** [StateId] literals *)

Lemma classify_root (hex : list ascii) :
  length hex = 64%nat ->
  forallb StateIdGrammar.is_hex_digit hex = true ->
  let literal := string_of_list_ascii ("0"%char :: "x"%char :: hex) in
  StateIdGrammar.classify literal = Some (StateIdGrammar.Root literal).
Proof.
  intros Hlen Hhex literal. unfold StateIdGrammar.classify, literal.
  rewrite list_ascii_of_string_of_list_ascii.
  cbn [string_of_list_ascii StateIdGrammar.aliases existsb String.eqb].
  replace (Ascii.eqb "0" "h") with false by reflexivity.
  replace (Ascii.eqb "0" "g") with false by reflexivity.
  replace (Ascii.eqb "0" "f") with false by reflexivity.
  replace (Ascii.eqb "0" "j") with false by reflexivity.
  cbn [orb StateIdGrammar.is_decimal forallb].
  replace (Serdes.is_digit "x") with false by reflexivity.
  rewrite andb_false_r. cbn [andb StateIdGrammar.is_root].
  rewrite Hhex, Hlen. reflexivity.
Qed.

(** C6, as the code has it.  The grammar of the spec makes "head", "genesis",
    "finalized" and "justified" aliases, "12345" the slot 12345 and "0x" with
    64 hex digits a root; but no serializer applies it.  [parseReq] of the
    state-only operations returns every literal as the string it is; for
    every operation the [stateId] returned is the [params.state_id] received,
    and whether [parseReq] fails does not depend on it; every schema
    declares [state_id] a required string, nothing more. *)
Theorem stateId_handed_on_unclassified :
  (StateIdGrammar.classify "head" = Some (StateIdGrammar.Alias "head")
   /\ StateIdGrammar.classify "genesis" = Some (StateIdGrammar.Alias "genesis")
   /\ StateIdGrammar.classify "finalized" = Some (StateIdGrammar.Alias "finalized")
   /\ StateIdGrammar.classify "justified" = Some (StateIdGrammar.Alias "justified")
   /\ StateIdGrammar.classify "12345" = Some (StateIdGrammar.Slot 12345)
   /\ forall hex, length hex = 64%nat ->
                  forallb StateIdGrammar.is_hex_digit hex = true ->
                  StateIdGrammar.classify (string_of_list_ascii ("0"%char :: "x"%char :: hex))
                  = Some (StateIdGrammar.Root (string_of_list_ascii ("0"%char :: "x"%char :: hex))))
  /\ (forall literal : string,
        parseReq ReqSerializers.stateIdOnlyReq
          {| params := {| state_id := literal; validator_id := tt |};
             query := tt; body := tt |}
        = Ok (StateIdStr literal))
  /\ (forall op r args,
        parseReq (reqSerializer op) r = Ok args ->
        argsStateId op args = reqStateId op r)
  /\ (forall op literal r,
        reqStateId op (withStateId op literal r) = StateIdStr literal
        /\ isOk (parseReq (reqSerializer op) (withStateId op literal r))
           = isOk (parseReq (reqSerializer op) r))
  /\ (forall op,
        schemaField "state_id" (schema_params (schema (reqSerializer op)))
        = Some Schema.StringRequired).
Proof.
  split; [|split; [|split; [|split]]].
  - repeat split; try (vm_compute; reflexivity). exact classify_root.
  - reflexivity.
  - intros op r args. destruct op; simpl in r, args |- *;
      try (intros [= <-]; reflexivity).
    + destruct (match b_ids (body r) with
                | Some ids => mapR Some (mapM_R parseValidatorId ids)
                | None => Ok None
                end); simpl; [|discriminate].
      intros [= <-]. reflexivity.
    + destruct (match body r with
                | Some ids => mapR Some (mapM_R parseValidatorId ids)
                | None => Ok None
                end); simpl; [|discriminate].
      intros [= <-]. reflexivity.
  - intros op literal r. destruct op; simpl in r |- *; split; try reflexivity.
    + destruct (match b_ids (body r) with
                | Some ids => mapR Some (mapM_R parseValidatorId ids)
                | None => Ok None
                end); reflexivity.
    + destruct (match body r with
                | Some ids => mapR Some (mapM_R parseValidatorId ids)
                | None => Ok None
                end); reflexivity.
  - intros op. destruct op; reflexivity.
Qed.

(** C6, as the spec states it, fails: the literal "0x" followed by 64 times
    "Z" is no alias, no slot and no root, and yet [parseReq] accepts it and
    hands it on, for a state-only operation and for one with a query. *)
Lemma malformed_stateId_not_rejected :
  let literal := "0xZZZZZZZZZZZZZZZZZZZZZZZZZZZZZZZZZZZZZZZZZZZZZZZZZZZZZZZZZZZZZZZZ" in
  StateIdGrammar.classify literal = None
  /\ parseReq (reqSerializer Api.getStateRoot)
       {| params := {| state_id := literal; validator_id := tt |};
          query := tt; body := tt |}
     = Ok (StateIdStr literal)
  /\ parseReq (reqSerializer Api.getEpochCommittees)
       {| params := {| state_id := StateIdStr literal; validator_id := tt |};
          query := emptyCommitteesFilters; body := tt |}
     = Ok (StateIdStr literal, Some emptyCommitteesFilters).
Proof.
  cbv zeta. split; [vm_compute; reflexivity|].
  split; reflexivity.
Qed.

(** ** The three tables *)

Ltac table_entries H :=
  repeat (apply lookup_insert_Some in H as [[<- <-]|[_ H]]; [|]);
  [..|apply lookup_singleton_Some in H as [<- <-]].

Ltac find_operation :=
  first [ exists Api.getStateRoot; reflexivity
        | exists Api.getStateFork; reflexivity
        | exists Api.getStateRandao; reflexivity
        | exists Api.getStateFinalityCheckpoints; reflexivity
        | exists Api.getStateValidators; reflexivity
        | exists Api.postStateValidators; reflexivity
        | exists Api.getStateValidator; reflexivity
        | exists Api.getStateValidatorBalances; reflexivity
        | exists Api.postStateValidatorBalances; reflexivity
        | exists Api.getEpochCommittees; reflexivity
        | exists Api.getEpochSyncCommittees; reflexivity ].

Lemma routesData_keys (name : string) (route : RouteDef) :
  routesData !! name = Some route -> exists op, name = Api.name op.
Proof.
  unfold routesData. intros H. table_entries H; find_operation.
Qed.

Lemma getReqSerializers_keys (name : string) (s : AnyReqSerializer) :
  getReqSerializers !! name = Some s -> exists op, name = Api.name op.
Proof.
  unfold getReqSerializers. intros H. table_entries H; find_operation.
Qed.

Lemma getReturnTypes_keys (sszValue : SszType -> Type)
  (sszJson : forall t, TypeJson (sszValue t)) (name : string) (rt : AnyReturnType) :
  getReturnTypes sszValue sszJson !! name = Some rt -> exists op, name = Api.name op.
Proof.
  unfold getReturnTypes. intros H. table_entries H; find_operation.
Qed.

Lemma routesData_lookup (op : Api.Operation) :
  exists route,
    routesData !! Api.name op = Some route
    /\ (method route = "GET" \/ method route = "POST").
Proof.
  destruct op;
    match goal with
    | |- context [routesData !! ?k] =>
        let r := eval vm_compute in (routesData !! k) in
        match r with
        | Some ?x => exists x; split; [vm_compute; reflexivity | simpl; auto]
        end
    end.
Qed.

Lemma routes_distinct (op1 op2 : Api.Operation) (route1 route2 : RouteDef) :
  routesData !! Api.name op1 = Some route1 ->
  routesData !! Api.name op2 = Some route2 ->
  method route1 = method route2 ->
  url route1 = url route2 ->
  op1 = op2.
Proof.
  intros H1 H2.
  destruct op1; vm_compute in H1; injection H1 as <-;
    destruct op2; vm_compute in H2; injection H2 as <-;
    simpl; intros Hm Hu; first [reflexivity | discriminate Hm | discriminate Hu].
Qed.

(** C9.  The route table, the request serializers and the return types each
    have an entry for every operation of [Api], and for nothing else; every
    method is GET or POST; and two operations with the same method and the
    same URL template are the same operation. *)
Theorem tables_total_and_routes_distinct :
  (forall op, exists route,
      routesData !! Api.name op = Some route
      /\ (method route = "GET" \/ method route = "POST"))
  /\ (forall op,
        getReqSerializers !! Api.name op
        = Some (Build_AnyReqSerializer _ _ (reqSerializer op)))
  /\ (forall sszValue sszJson op,
        getReturnTypes sszValue sszJson !! Api.name op
        = Some (returnType (WithFinalized (ContainerDataExecutionOptimistic
                                             (sszJson (ReturnTypes.payload op))))))
  /\ (forall op1 op2 route1 route2,
        routesData !! Api.name op1 = Some route1 ->
        routesData !! Api.name op2 = Some route2 ->
        method route1 = method route2 ->
        url route1 = url route2 ->
        op1 = op2)
  /\ (forall name,
        (is_Some (routesData !! name) -> exists op, name = Api.name op)
        /\ (is_Some (getReqSerializers !! name) -> exists op, name = Api.name op)
        /\ (forall sszValue sszJson,
              is_Some (getReturnTypes sszValue sszJson !! name) ->
              exists op, name = Api.name op)).
Proof.
  split; [exact routesData_lookup|].
  split; [intros op; destruct op; reflexivity|].
  split; [intros sszValue sszJson op; destruct op; reflexivity|].
  split; [exact routes_distinct|].
  intros name. split; [|split].
  - intros [route H]. exact (routesData_keys name route H).
  - intros [s H]. exact (getReqSerializers_keys name s H).
  - intros sszValue sszJson [rt H]. exact (getReturnTypes_keys sszValue sszJson name rt H).
Qed.

(** ** The optimistic/finalized envelope *)

Section Envelope.

Context {T : Type} (dataType : TypeJson T).

Lemma optionalFlag_absent (o : gmap string Json) (key : string) :
  o !! key = None -> optionalFlag o key = Some false.
Proof. intros H. unfold optionalFlag. rewrite H. reflexivity. Qed.

Lemma optionalFlag_delete (o : gmap string Json) (key key' : string) :
  key' <> key -> optionalFlag (delete key' o) key = optionalFlag o key.
Proof.
  intros H. unfold optionalFlag. rewrite lookup_delete_ne by assumption. reflexivity.
Qed.

(** What the envelope reads from an object that has a [data] property. *)
Lemma envelope_fromJsonObject (o : gmap string Json) (j : Json) (v : T) (eo fin : bool) :
  o !! "data" = Some j ->
  fromJson dataType j = Some v ->
  optionalFlag o "execution_optimistic" = Some eo ->
  optionalFlag o "finalized" = Some fin ->
  fromJsonObject (WithFinalized (ContainerDataExecutionOptimistic dataType)) o
  = Some {| rest := {| data := v; executionOptimistic := eo |}; finalized := fin |}.
Proof.
  intros Hdata Hv Heo Hfin.
  cbn [fromJsonObject WithFinalized ContainerDataExecutionOptimistic].
  rewrite lookup_delete_ne by discriminate. rewrite Hdata, Hv.
  rewrite optionalFlag_delete by discriminate. rewrite Heo, Hfin. reflexivity.
Qed.

(** The object the envelope writes has exactly the three properties of
    section 6. *)
Lemma envelope_toJsonObject (v : T) (eo fin : bool) :
  toJsonObject (WithFinalized (ContainerDataExecutionOptimistic dataType))
    {| rest := {| data := v; executionOptimistic := eo |}; finalized := fin |}
  = {[ "data" := toJson dataType v;
       "execution_optimistic" := JBool eo;
       "finalized" := JBool fin ]}.
Proof.
  cbn [toJsonObject WithFinalized ContainerDataExecutionOptimistic
       rest finalized data executionOptimistic].
  apply map_eq. intros k.
  destruct (decide (k = "finalized")) as [->|Hf]; [reflexivity|].
  rewrite lookup_insert_ne by congruence.
  destruct (decide (k = "data")) as [->|Hd]; [reflexivity|].
  rewrite !(lookup_insert_ne _ "data") by congruence.
  destruct (decide (k = "execution_optimistic")) as [->|He]; [reflexivity|].
  rewrite lookup_singleton_ne by congruence.
  rewrite lookup_insert_ne by congruence.
  rewrite lookup_singleton_ne by congruence. reflexivity.
Qed.

Lemma envelope_fromJson_toJson (v : T) (eo fin : bool) :
  fromJson dataType (toJson dataType v) = Some v ->
  let type := WithFinalized (ContainerDataExecutionOptimistic dataType) in
  let value := {| rest := {| data := v; executionOptimistic := eo |}; finalized := fin |} in
  fromJsonObject type (toJsonObject type value) = Some value.
Proof.
  intros Hv type value.
  apply envelope_fromJsonObject with (j := toJson dataType v);
    [reflexivity|assumption|reflexivity|reflexivity].
Qed.

End Envelope.

(** C5.  Every operation's return type is [WithFinalized] of
    [ContainerDataExecutionOptimistic] of its payload schema.  Writing the
    envelope of a payload its schema reads back, and reading the result,
    gives the envelope back, payload and both flags; and on reading an object,
    an absent [execution_optimistic] is read as false and an absent
    [finalized] is read as false. *)
Theorem envelope_uniform_roundtrip_defaults
  (sszValue : SszType -> Type) (sszJson : forall t, TypeJson (sszValue t))
  (op : Api.Operation) :
  let t := ReturnTypes.payload op in
  let type := WithFinalized (ContainerDataExecutionOptimistic (sszJson t)) in
  getReturnTypes sszValue sszJson !! Api.name op = Some (returnType type)
  /\ (forall (v : sszValue t) (eo fin : bool),
        fromJson (sszJson t) (toJson (sszJson t) v) = Some v ->
        fromJsonObject type
          (toJsonObject type
             {| rest := {| data := v; executionOptimistic := eo |}; finalized := fin |})
        = Some {| rest := {| data := v; executionOptimistic := eo |}; finalized := fin |})
  /\ (forall (o : gmap string Json) (j : Json) (v : sszValue t),
        o !! "data" = Some j ->
        fromJson (sszJson t) j = Some v ->
        (o !! "execution_optimistic" = None ->
         forall fin, optionalFlag o "finalized" = Some fin ->
           fromJsonObject type o
           = Some {| rest := {| data := v; executionOptimistic := false |};
                     finalized := fin |})
        /\ (o !! "finalized" = None ->
            forall eo, optionalFlag o "execution_optimistic" = Some eo ->
              fromJsonObject type o
              = Some {| rest := {| data := v; executionOptimistic := eo |};
                        finalized := false |})).
Proof.
  cbv zeta. split; [destruct op; reflexivity|]. split.
  - intros v eo fin Hv. apply envelope_fromJson_toJson. assumption.
  - intros o j v Hdata Hv. split.
    + intros Heo fin Hfin. apply envelope_fromJsonObject with (j := j); try assumption.
      apply optionalFlag_absent. assumption.
    + intros Hfin eo Heo. apply envelope_fromJsonObject with (j := j); try assumption.
      apply optionalFlag_absent. assumption.
Qed.

(** The envelope of [getStateRoot] over the sample codec: a payload written
    and read back, and an object with [data] alone read with both flags
    false. *)
Lemma envelope_uniform_roundtrip_defaults_witness :
  let type := WithFinalized (ContainerDataExecutionOptimistic
                               (sampleJson ReturnTypes.RootContainer)) in
  fromJsonObject type
    (toJsonObject type
       {| rest := {| data := 7; executionOptimistic := true |}; finalized := false |})
  = Some {| rest := {| data := 7; executionOptimistic := true |}; finalized := false |}
  /\ fromJsonObject type {[ "data" := JNum 7 ]}
     = Some {| rest := {| data := 7; executionOptimistic := false |}; finalized := false |}.
Proof.
  destruct (envelope_uniform_roundtrip_defaults (fun _ => N) sampleJson Api.getStateRoot)
    as (_ & Hroundtrip & Hdefault).
  split.
  - apply Hroundtrip. reflexivity.
  - refine (proj1 (Hdefault {[ "data" := JNum 7 ]} (JNum 7) 7 _ _) _ false _);
      reflexivity.
Defined.

(** * Further properties of the serializers and the tables *)

(** ** Requests that [parseReq] accepts *)

Lemma isOk_mapM_R_false {A B : Type} (f : A -> Result B) (l : list A) :
  isOk (mapM_R f l) = false <-> exists x, In x l /\ isOk (f x) = false.
Proof.
  induction l as [|a l IH]; simpl.
  - split; [discriminate|]. intros (x & [] & _).
  - destruct (f a) as [b|e] eqn:Ha; simpl.
    + destruct (mapM_R f l) as [bs|e] eqn:Hl; simpl.
      * split; [discriminate|]. intros (x & [<-|Hin] & Hx).
        -- rewrite Ha in Hx. discriminate.
        -- destruct IH as [_ IH]. discriminate IH. exists x. auto.
      * split; [|reflexivity]. intros _.
        destruct IH as [IH _]. destruct (IH eq_refl) as (x & Hin & Hx).
        exists x. auto.
    + split; [|reflexivity]. intros _. exists a. rewrite Ha. auto.
Qed.

Lemma isOk_parseValidatorId_false (id : string) :
  isOk (parseValidatorId id) = false <->
  String.prefix "0x" id = false /\ isOk (Serdes.fromU64Str id) = false.
Proof.
  unfold parseValidatorId. destruct (String.prefix "0x" id); simpl.
  - split; [discriminate|]. intros [H _]. discriminate.
  - destruct (Serdes.fromU64Str id); simpl; split; try discriminate; auto.
    intros [_ H]. discriminate.
Qed.

Lemma isOk_parse_ids_false (wire : option (list string)) :
  isOk (match wire with
        | Some ids => mapR Some (mapM_R parseValidatorId ids)
        | None => Ok None
        end) = false <->
  exists ids id,
    wire = Some ids /\ In id ids
    /\ String.prefix "0x" id = false /\ isOk (Serdes.fromU64Str id) = false.
Proof.
  destruct wire as [ids|].
  - transitivity (isOk (mapM_R parseValidatorId ids) = false).
    { destruct (mapM_R parseValidatorId ids); reflexivity. }
    rewrite isOk_mapM_R_false. split.
    + intros (id & Hin & Hid). apply isOk_parseValidatorId_false in Hid.
      exists ids, id. tauto.
    + intros (ids' & id & [= <-] & Hin & Hid). exists id. split; [assumption|].
      apply isOk_parseValidatorId_false. assumption.
  - simpl. split; [discriminate|]. intros (ids & id & H & _). discriminate.
Qed.

(** X1.  [parseReq] of an operation whose route is a GET accepts every
    request, and [writeReq] of what it returns is that request again:
    nothing of a GET request is lost or altered. *)
Theorem get_parseReq_total_lossless (op : Api.Operation) (route : RouteDef)
  (r : Api.ReqType op) :
  routesData !! Api.name op = Some route ->
  method route = "GET" ->
  exists args,
    parseReq (reqSerializer op) r = Ok args
    /\ writeReq (reqSerializer op) args = r.
Proof.
  intros Hroute Hget.
  destruct op; vm_compute in Hroute; injection Hroute as <-;
    try discriminate Hget; simpl in r |- *.
  all: destruct r as [[s v] q b]; try destruct v; try destruct q; try destruct b;
    eexists; split; reflexivity.
Qed.

Lemma get_parseReq_total_lossless_witness :
  let r := {| params := {| state_id := StateIdNum 12345; validator_id := tt |};
              query := {| cf_epoch := Some 3; cf_index := None; cf_slot := Some 100 |};
              body := tt |} in
  exists args,
    parseReq (reqSerializer Api.getEpochCommittees) r = Ok args
    /\ writeReq (reqSerializer Api.getEpochCommittees) args = r.
Proof.
  apply (get_parseReq_total_lossless Api.getEpochCommittees
           {| url := "/eth/v1/beacon/states/{state_id}/committees"; method := "GET" |});
    reflexivity.
Defined.

(** X2.  [parseReq] of [postStateValidators] and of
    [postStateValidatorBalances] fails exactly when the id list is present
    and holds an element that does not start with "0x" and that
    [fromU64Str] rejects; an absent or empty list, the statuses and the
    [state_id] never make it fail. *)
Theorem post_parseReq_fails_iff :
  (forall r,
      isOk (parseReq ReqSerializers.postStateValidators r) = false <->
      exists ids id,
        b_ids (body r) = Some ids /\ In id ids
        /\ String.prefix "0x" id = false /\ isOk (Serdes.fromU64Str id) = false)
  /\ (forall r,
        isOk (parseReq ReqSerializers.postStateValidatorBalances r) = false <->
        exists ids id,
          body r = Some ids /\ In id ids
          /\ String.prefix "0x" id = false /\ isOk (Serdes.fromU64Str id) = false).
Proof.
  split; intros r.
  - rewrite <- isOk_parse_ids_false. simpl.
    destruct (match b_ids (body r) with
              | Some ids => mapR Some (mapM_R parseValidatorId ids)
              | None => Ok None
              end); reflexivity.
  - rewrite <- isOk_parse_ids_false. simpl.
    destruct (match body r with
              | Some ids => mapR Some (mapM_R parseValidatorId ids)
              | None => Ok None
              end); reflexivity.
Qed.

(** ** What [parseReq] can return *)

Lemma fromU64Str_bound (s : string) (n : N) :
  Serdes.fromU64Str s = Ok n -> n <= Serdes.U64_MAX.
Proof.
  unfold Serdes.fromU64Str. cbv zeta.
  destruct (negb _); [discriminate|].
  destruct (Serdes.has_leading_zero _); [discriminate|].
  destruct (Serdes.U64_MAX <? _) eqn:Hv; [discriminate|].
  intros [= <-]. apply N.ltb_ge. assumption.
Qed.

Lemma parseValidatorId_wireSafe (w : string) (id : ValidatorId) :
  parseValidatorId w = Ok id -> wireSafeId id = true.
Proof.
  unfold parseValidatorId. destruct (String.prefix "0x" w) eqn:Hp.
  - intros [= <-]. exact Hp.
  - destruct (Serdes.fromU64Str w) as [n|e] eqn:Hn; simpl; [|discriminate].
    intros [= <-]. simpl. apply N.leb_le. apply fromU64Str_bound with w. assumption.
Qed.

Lemma parse_ids_wireSafe (wire : list string) (ids : list ValidatorId) :
  mapM_R parseValidatorId wire = Ok ids -> forallb wireSafeId ids = true.
Proof.
  intros H. apply mapM_R_Ok_Forall2 in H.
  induction H as [|w id wire ids Hw _ IH]; [reflexivity|].
  simpl. rewrite (parseValidatorId_wireSafe w id Hw). exact IH.
Qed.

(** X3.  Whatever request they are given, the two POST [parseReq] never
    return a string id that lacks the prefix "0x", nor a number above
    2^64-1; [postStateValidators] always returns a filter object, and
    [postStateValidatorBalances] returns no list only for a request without
    a body. *)
Theorem post_parseReq_ids_wireSafe :
  (forall r s f,
      parseReq ReqSerializers.postStateValidators r = Ok (s, f) ->
      exists f', f = Some f' /\ wireSafeIds (vf_id f') = true)
  /\ (forall r s ids,
        parseReq ReqSerializers.postStateValidatorBalances r = Ok (s, ids) ->
        match ids with
        | Some ids' => forallb wireSafeId ids' = true
        | None => body r = None
        end).
Proof.
  split.
  - intros [p [] [wire statuses]] s f. simpl.
    destruct wire as [wire|]; simpl.
    + destruct (mapM_R parseValidatorId wire) as [ids|e] eqn:Hm; simpl; [|discriminate].
      intros [= _ <-]. eexists. split; [reflexivity|]. simpl.
      apply parse_ids_wireSafe with wire. assumption.
    + intros [= _ <-]. eexists. split; reflexivity.
  - intros [p [] wire] s ids. simpl.
    destruct wire as [wire|]; simpl.
    + destruct (mapM_R parseValidatorId wire) as [ids'|e] eqn:Hm; simpl; [|discriminate].
      intros [= _ <-]. apply parse_ids_wireSafe with wire. assumption.
    + intros [= _ <-]. reflexivity.
Qed.

(** X4.  One trip through [writeReq] and [parseReq] normalises the
    arguments: the tuple that comes back goes through a second trip
    unchanged, for every operation. *)
Theorem roundtrip_idempotent (op : Api.Operation) (args args' : Api.Args op) :
  parseReq (reqSerializer op) (writeReq (reqSerializer op) args) = Ok args' ->
  parseReq (reqSerializer op) (writeReq (reqSerializer op) args') = Ok args'.
Proof.
  destruct op; simpl in args, args' |- *.
  - intros [= <-]. reflexivity.
  - intros [= <-]. reflexivity.
  - destruct args. intros [= <-]. reflexivity.
  - intros [= <-]. reflexivity.
  - destruct args as [s f]. intros [= <-]. reflexivity.
  - destruct args as [s f]. simpl.
    destruct (match
                 match f with
                 | Some f0 => option_map (List.map writeValidatorId) (vf_id f0)
                 | None => None
                 end
               with
               | Some ids => mapR Some (mapM_R parseValidatorId ids)
               | None => Ok None
               end) as [ids|e] eqn:Hids; simpl; [|discriminate].
    intros [= <-]. simpl.
    destruct ids as [ids|]; simpl; [|reflexivity].
    assert (forallb wireSafeId ids = true) as Hsafe.
    { destruct f as [[[fids|] ?]|]; simpl in Hids; try discriminate Hids.
      destruct (mapM_R parseValidatorId (List.map writeValidatorId fids)) eqn:Hm;
        simpl in Hids; [|discriminate Hids].
      injection Hids as <-. apply parse_ids_wireSafe in Hm. assumption. }
    rewrite parse_write_wireSafeIds by assumption. reflexivity.
  - destruct args. intros [= <-]. reflexivity.
  - destruct args. intros [= <-]. reflexivity.
  - destruct args as [s ids]. simpl.
    destruct (mapM_R parseValidatorId
                (or_default (option_map (List.map writeValidatorId) ids) []))
      as [ids'|e] eqn:Hm; simpl; [|discriminate].
    intros [= <-]. simpl.
    apply parse_ids_wireSafe in Hm.
    rewrite parse_write_wireSafeIds by assumption. reflexivity.
  - destruct args as [s f]. intros [= <-]. reflexivity.
  - destruct args. intros [= <-]. reflexivity.
Qed.

Lemma roundtrip_idempotent_witness :
  parseReq (reqSerializer Api.postStateValidatorBalances)
    (writeReq (reqSerializer Api.postStateValidatorBalances)
       (StateIdStr "head", Some [ValidatorIdNum 42; ValidatorIdStr "0xaa"]))
  = Ok (StateIdStr "head", Some [ValidatorIdNum 42; ValidatorIdStr "0xaa"]).
Proof.
  apply (roundtrip_idempotent Api.postStateValidatorBalances
           (StateIdStr "head", Some [ValidatorIdStr "42"; ValidatorIdStr "0xaa"])).
  vm_compute. reflexivity.
Defined.

(** X5.  Outside the exact arguments the tuple never comes back: a numeric
    [stateId] of a state-only operation, an absent filter of the four
    operations that default it, and a POST id that is a string without the
    prefix or a number above 2^64-1 each make [parseReq (writeReq args)]
    differ from [args]. *)
Theorem roundtrip_changes_inexact_args (op : Api.Operation) (args : Api.Args op) :
  exactArgs op args = false ->
  parseReq (reqSerializer op) (writeReq (reqSerializer op) args) <> Ok args.
Proof.
  intros Hne Hrt. apply parseReq_writeReq_only in Hrt. congruence.
Qed.

Lemma roundtrip_changes_inexact_args_witness :
  parseReq (reqSerializer Api.postStateValidators)
    (writeReq (reqSerializer Api.postStateValidators)
       (StateIdStr "head",
        Some {| vf_id := Some [ValidatorIdNum (Serdes.U64_MAX + 1)]; vf_status := None |}))
  <> Ok (StateIdStr "head",
         Some {| vf_id := Some [ValidatorIdNum (Serdes.U64_MAX + 1)]; vf_status := None |}).
Proof.
  apply (roundtrip_changes_inexact_args Api.postStateValidators). reflexivity.
Defined.

(** ** GET and POST variants, absent filters included *)

(** X6.  With the filters absent, [getStateValidators] and
    [postStateValidators] still parse to the same tuple (the empty filter
    object), as they do for every filter with wire-safe ids; the balances
    variants do not: with the indices absent the GET variant returns no list
    and the POST variant the empty list. *)
Theorem get_post_absent_filters (s : StateId) :
  (forall f : option ValidatorFilters,
      match f with Some f' => wireSafeIds (vf_id f') | None => true end = true ->
      parseReq ReqSerializers.getStateValidators
        (writeReq ReqSerializers.getStateValidators (s, f))
      = parseReq ReqSerializers.postStateValidators
          (writeReq ReqSerializers.postStateValidators (s, f)))
  /\ parseReq ReqSerializers.getStateValidatorBalances
       (writeReq ReqSerializers.getStateValidatorBalances (s, None))
     = Ok (s, None)
  /\ parseReq ReqSerializers.postStateValidatorBalances
       (writeReq ReqSerializers.postStateValidatorBalances (s, None))
     = Ok (s, Some []).
Proof.
  split; [|split; reflexivity].
  intros [[[ids|] statuses]|]; simpl; intros H; try reflexivity.
  rewrite parse_write_wireSafeIds by assumption. reflexivity.
Qed.

(** ** The tables agree with each other *)

(** X7.  The method of the route decides where the arguments travel: the
    serializer of a GET route declares no body, in its schema and in
    [ReqTypes]; the serializer of a POST route declares a body and no
    query. *)
Theorem method_decides_placement (op : Api.Operation) (route : RouteDef) :
  routesData !! Api.name op = Some route ->
  let s := schema (reqSerializer op) in
  (method route = "GET" -> schema_body s = None /\ shape_body (reqTypeShape op) = false)
  /\ (method route = "POST" ->
      schema_query s = [] /\ isSome (schema_body s) = true
      /\ shape_body (reqTypeShape op) = true).
Proof.
  intros Hroute.
  destruct op; vm_compute in Hroute; injection Hroute as <-; cbv zeta; simpl;
    split; intros Hm; try discriminate Hm; repeat split.
Qed.

Lemma method_decides_placement_witness :
  let s := schema (reqSerializer Api.postStateValidatorBalances) in
  ("POST" = "GET" ->
   schema_body s = None /\ shape_body (reqTypeShape Api.postStateValidatorBalances) = false)
  /\ ("POST" = "POST" ->
      schema_query s = [] /\ isSome (schema_body s) = true
      /\ shape_body (reqTypeShape Api.postStateValidatorBalances) = true).
Proof.
  apply (method_decides_placement Api.postStateValidatorBalances
           {| url := "/eth/v1/beacon/states/{state_id}/validator_balances";
              method := "POST" |}).
  reflexivity.
Defined.

(** X8.  Every schema declares a descriptor for exactly the properties of
    [params] and of [query] that [ReqTypes] declares for the operation, in
    the same order, and one for the body exactly when [ReqTypes] declares a
    body; and where the filter object itself is sent as the query, its
    properties are the ones the schema describes. *)
Theorem schema_keys_match_ReqTypes (op : Api.Operation) :
  let s := schema (reqSerializer op) in
  List.map fst (schema_params s) = shape_params (reqTypeShape op)
  /\ List.map fst (schema_query s) = shape_query (reqTypeShape op)
  /\ isSome (schema_body s) = shape_body (reqTypeShape op)
  /\ Permutation CommitteesFilters_keys
       (List.map fst (schema_query (schema ReqSerializers.getEpochCommittees)))
  /\ Permutation ValidatorFilters_keys
       (List.map fst (schema_query (schema ReqSerializers.getStateValidators))).
Proof.
  cbv zeta. split; [destruct op; reflexivity|].
  split; [destruct op; reflexivity|].
  split; [destruct op; reflexivity|].
  split.
  - simpl. unfold CommitteesFilters_keys.
    apply Permutation_sym, Permutation_cons_app with (l1 := ["epoch"; "index"]).
    reflexivity.
  - reflexivity.
Qed.

(** X9.  The names between braces in the URL template of an operation are
    the properties of [params] its schema describes, in the same order; and
    every template starts with the path of a state. *)
Theorem url_placeholders_are_params (op : Api.Operation) (route : RouteDef) :
  routesData !! Api.name op = Some route ->
  placeholders (url route) = List.map fst (schema_params (schema (reqSerializer op)))
  /\ String.prefix "/eth/v1/beacon/states/{state_id}/" (url route) = true.
Proof.
  intros Hroute.
  destruct op; vm_compute in Hroute; injection Hroute as <-; split; vm_compute; reflexivity.
Qed.

Lemma url_placeholders_are_params_witness :
  placeholders "/eth/v1/beacon/states/{state_id}/validators/{validator_id}"
  = List.map fst (schema_params (schema (reqSerializer Api.getStateValidator)))
  /\ String.prefix "/eth/v1/beacon/states/{state_id}/"
       "/eth/v1/beacon/states/{state_id}/validators/{validator_id}" = true.
Proof.
  apply (url_placeholders_are_params Api.getStateValidator
           {| url := "/eth/v1/beacon/states/{state_id}/validators/{validator_id}";
              method := "GET" |}).
  reflexivity.
Defined.

(** X10.  Two operations with the same URL template are one query on two
    transports: they take the same arguments, have the same payload schema
    and declare the same error codes, and they differ in method. *)
Theorem same_url_same_contract (op1 op2 : Api.Operation) (route1 route2 : RouteDef) :
  routesData !! Api.name op1 = Some route1 ->
  routesData !! Api.name op2 = Some route2 ->
  url route1 = url route2 ->
  Api.Args op1 = Api.Args op2
  /\ ReturnTypes.payload op1 = ReturnTypes.payload op2
  /\ ApiResponses.errors op1 = ApiResponses.errors op2
  /\ (op1 <> op2 -> method route1 <> method route2).
Proof.
  intros H1 H2.
  destruct op1; vm_compute in H1; injection H1 as <-;
    destruct op2; vm_compute in H2; injection H2 as <-;
    simpl; intros Hu; try discriminate Hu;
    (split; [reflexivity|split; [reflexivity|split; [reflexivity|]]]);
    intros Hne; first [contradiction Hne; reflexivity | discriminate].
Qed.

Lemma same_url_same_contract_witness :
  Api.Args Api.getStateValidatorBalances = Api.Args Api.postStateValidatorBalances
  /\ ReturnTypes.payload Api.getStateValidatorBalances
     = ReturnTypes.payload Api.postStateValidatorBalances
  /\ ApiResponses.errors Api.getStateValidatorBalances
     = ApiResponses.errors Api.postStateValidatorBalances
  /\ (Api.getStateValidatorBalances <> Api.postStateValidatorBalances -> "GET" <> "POST").
Proof.
  apply (same_url_same_contract Api.getStateValidatorBalances Api.postStateValidatorBalances
           {| url := "/eth/v1/beacon/states/{state_id}/validator_balances"; method := "GET" |}
           {| url := "/eth/v1/beacon/states/{state_id}/validator_balances"; method := "POST" |});
    reflexivity.
Defined.

(** X11.  The schema [getReturnTypes] builds for an operation describes the
    type [Api] declares for its [data]: an array where an array is declared,
    a container with the declared property names in the declared order, and
    [ssz.phase0.Fork] for [phase0.Fork]. *)
Theorem schema_describes_declared_data (op : Api.Operation) :
  shapeOf (ReturnTypes.payload op) = ApiResponses.data op.
Proof.
  destruct op; reflexivity.
Qed.

(** ** Every element of a POST id list *)

Lemma parseValidatorId_classifiedAs (w : string) (id : ValidatorId) :
  parseValidatorId w = Ok id <-> classifiedAs w id.
Proof.
  unfold parseValidatorId, classifiedAs. destruct (String.prefix "0x" w).
  - split; [intros [= <-]; reflexivity | intros ->; reflexivity].
  - destruct (Serdes.fromU64Str w) as [n|e]; simpl; split.
    + intros [= <-]. exists n. split; reflexivity.
    + intros (n' & [= <-] & ->). reflexivity.
    + discriminate.
    + intros (n' & H & _). discriminate.
Qed.

Lemma parseValidatorId_rejected (w : string) :
  isOk (parseValidatorId w) = false <-> rejected w.
Proof.
  rewrite isOk_parseValidatorId_false. unfold rejected.
  destruct (Serdes.fromU64Str w) as [n|e]; simpl; split; intros [Hp H]; split;
    try assumption; try discriminate.
  - destruct H as [e H]. discriminate.
  - exists e. reflexivity.
  - reflexivity.
Qed.

Lemma parse_ids_classifiedAs (wire : list string) (ids : list ValidatorId) :
  mapM_R parseValidatorId wire = Ok ids <-> Forall2 classifiedAs wire ids.
Proof.
  rewrite mapM_R_Ok_Forall2. split; intros H.
  - induction H; constructor; [apply parseValidatorId_classifiedAs|]; assumption.
  - induction H; constructor; [apply parseValidatorId_classifiedAs|]; assumption.
Qed.

Lemma parse_ids_rejected (wire : list string) :
  mapM_R parseValidatorId wire = Err MalformedNumber <->
  exists w, In w wire /\ rejected w.
Proof.
  transitivity (isOk (mapM_R parseValidatorId wire) = false).
  { destruct (mapM_R parseValidatorId wire) as [ids|[]]; simpl; split;
      try discriminate; reflexivity. }
  rewrite isOk_mapM_R_false. split; intros (w & Hin & Hw); exists w;
    (split; [assumption|]); apply parseValidatorId_rejected; assumption.
Qed.

Lemma parse_ids_dichotomy (wire : list string) :
  (exists ids, Forall2 classifiedAs wire ids) \/ (exists w, In w wire /\ rejected w).
Proof.
  destruct (mapM_R parseValidatorId wire) as [ids|[]] eqn:Hm.
  - left. exists ids. apply parse_ids_classifiedAs. assumption.
  - right. apply parse_ids_rejected. assumption.
Qed.

(** C7.  An element of the id list of a POST body is classified by its
    prefix alone: one that starts with "0x" is kept as the same string, any
    other goes through [fromU64Str] and becomes a number ("42" becomes 42).
    [postStateValidators] and [postStateValidatorBalances] treat every
    element of their lists so, on every request: when each element has a
    reading, [parseReq] returns exactly the list of the readings, in order,
    beside the [state_id] (and the statuses) it received; when some element
    has none, it fails with [MalformedNumber]; one of the two is always the
    case; and without a list it returns none. *)
Theorem validatorId_classified_by_prefix :
  (forall id, String.prefix "0x" id = true ->
              parseValidatorId id = Ok (ValidatorIdStr id))
  /\ (forall id, String.prefix "0x" id = false ->
                 parseValidatorId id = mapR ValidatorIdNum (Serdes.fromU64Str id))
  /\ parseValidatorId "42" = Ok (ValidatorIdNum 42)
  /\ (forall r,
        match b_ids (body r) with
        | None =>
            parseReq ReqSerializers.postStateValidators r
            = Ok (state_id (params r),
                  Some {| vf_id := None; vf_status := b_statuses (body r) |})
        | Some wire =>
            (forall ids,
                Forall2 classifiedAs wire ids <->
                parseReq ReqSerializers.postStateValidators r
                = Ok (state_id (params r),
                      Some {| vf_id := Some ids; vf_status := b_statuses (body r) |}))
            /\ ((exists w, In w wire /\ rejected w) <->
                parseReq ReqSerializers.postStateValidators r = Err MalformedNumber)
            /\ ((exists ids, Forall2 classifiedAs wire ids)
                \/ (exists w, In w wire /\ rejected w))
        end)
  /\ (forall r,
        match body r with
        | None =>
            parseReq ReqSerializers.postStateValidatorBalances r
            = Ok (state_id (params r), None)
        | Some wire =>
            (forall ids,
                Forall2 classifiedAs wire ids <->
                parseReq ReqSerializers.postStateValidatorBalances r
                = Ok (state_id (params r), Some ids))
            /\ ((exists w, In w wire /\ rejected w) <->
                parseReq ReqSerializers.postStateValidatorBalances r = Err MalformedNumber)
            /\ ((exists ids, Forall2 classifiedAs wire ids)
                \/ (exists w, In w wire /\ rejected w))
        end).
Proof.
  split; [exact parseValidatorId_hex|].
  split; [exact parseValidatorId_decimal|].
  split; [vm_compute; reflexivity|].
  split.
  - intros [p [] [[wire|] statuses]]; simpl; [|reflexivity].
    split; [|split; [|apply parse_ids_dichotomy]].
    + intros ids. rewrite <- parse_ids_classifiedAs.
      destruct (mapM_R parseValidatorId wire) as [ids'|e]; simpl; split;
        try discriminate; intros [= ->]; reflexivity.
    + rewrite <- parse_ids_rejected.
      destruct (mapM_R parseValidatorId wire) as [ids'|[]]; simpl; split;
        try discriminate; reflexivity.
  - intros [p [] [wire|]]; simpl; [|reflexivity].
    split; [|split; [|apply parse_ids_dichotomy]].
    + intros ids. rewrite <- parse_ids_classifiedAs.
      destruct (mapM_R parseValidatorId wire) as [ids'|e]; simpl; split;
        try discriminate; intros [= ->]; reflexivity.
    + rewrite <- parse_ids_rejected.
      destruct (mapM_R parseValidatorId wire) as [ids'|[]]; simpl; split;
        try discriminate; reflexivity.
Qed.

(** Both kinds of element in one body. *)
Lemma validatorId_classified_by_prefix_witness :
  parseReq ReqSerializers.postStateValidatorBalances
    {| params := {| state_id := StateIdStr "head"; validator_id := tt |};
       query := tt; body := Some ["42"; "0xabcdef"] |}
  = Ok (StateIdStr "head", Some [ValidatorIdNum 42; ValidatorIdStr "0xabcdef"]).
Proof.
  apply (proj1 (proj2 (proj2 (proj2 (proj2 validatorId_classified_by_prefix)))
                  {| params := {| state_id := StateIdStr "head"; validator_id := tt |};
                     query := tt; body := Some ["42"; "0xabcdef"] |})).
  repeat constructor. exists 42. split; [vm_compute; reflexivity | reflexivity].
Defined.
